(** * Payment completion and enrollment consistency of the LMS backend

    A shallow embedding of [src/routes/payments.js] (the [/create-checkout]
    and [/webhook] handlers) over the Sequelize models of [models/index.js],
    followed by the properties of the payment-completion subsystem.

    Conventions of the embedding:
    - the durable store is a record of tables; a handler is a function in a
      state-and-exception monad over it.  An exception does not undo the
      writes made before it: the source opens no transaction anywhere;
    - every query sent to the store is logged, and the store may refuse it
      (lost connection, foreign key, column range, ...): the refusals to
      come are part of the world, so that every theorem quantifies over
      them;
    - what the payment provider's library answers (the outcome of
      [stripe.webhooks.constructEvent], which depends on the clock, and of
      [stripe.checkout.sessions.create]) is an input of the handler;
    - where a query has no ORDER BY, the row the store returns is the
      store's choice: the choices to come are part of the world too;
    - JavaScript numbers are IEEE 754 doubles: Rocq's primitive floats;
    - the store keeps the columns as the models declare them: a
      [DECIMAL(p,2)] column rounds the number it is given to two places,
      half away from zero, and refuses one that needs more than [p]
      digits. *)

From Stdlib Require Import ZArith List String Bool Lia.
From Stdlib Require Import PrimFloat Uint63 SpecFloat FloatOps.
From stdpp Require Import gmap strings list.

Local Open Scope string_scope.
Local Open Scope list_scope.

(** ** Data model (models/index.js) *)

(** A [DECIMAL(10,2)] column holds an exact decimal with two places; it is
    kept as its number of hundredths.  Sequelize hands it to JavaScript as
    it is stored, and arithmetic coerces it to the nearest double. *)
Definition decimal := Z.

(** [ToNumber d]: the double a decimal of [d] hundredths coerces to.  Both
    [|d| < 10^10] and [100] are doubles, and IEEE division is correctly
    rounded, so this is the double nearest to [d / 100]. *)
Definition ToNumber (d : decimal) : float :=
  if (d <? 0)%Z
  then PrimFloat.opp (PrimFloat.div (PrimFloat.of_uint63 (Uint63.of_Z (- d))) 100%float)
  else PrimFloat.div (PrimFloat.of_uint63 (Uint63.of_Z d)) 100%float.
Arguments ToNumber d%_Z.

(** [floor (k * m * 2^e)] *)
Definition scaled (k : Z) (m : positive) (e : Z) : Z :=
  if (0 <=? e)%Z then (k * Z.pos m * 2 ^ e)%Z else (k * Z.pos m / 2 ^ (- e))%Z.

(** The decimal [t / 1000] reads back as the double [x]: the quotient of
    two doubles is correctly rounded. *)
Definition reads_back (t : Z) (x : float) : bool :=
  PrimFloat.eqb (PrimFloat.div (PrimFloat.of_uint63 (Uint63.of_Z t)) 1000%float) x.

(** [t / 1000] rounded to two places, half away from zero ([0 <= t]). *)
Definition half_up (t : Z) : Z := ((t + 5) / 10)%Z.

(** The value a [DECIMAL(p,2)] column keeps (in hundredths) for a
    JavaScript number [x].  Sequelize writes the number into the statement
    as JavaScript prints it, that is as the shortest decimal that reads
    back as [x], and the store rounds that decimal to two places, half
    away from zero.  If a decimal of at most three places reads back as
    [x], it is the one printed, and it is rounded; otherwise what is
    printed has more places and lies, with [x], strictly between the same
    two half-cents, so it rounds as the exact value of [x] does.  Meant for
    the numbers such a column holds (below [10^p / 100] in absolute value);
    [0] for a number that is not finite. *)
Definition DECIMAL_2 (x : float) : decimal :=
  match Prim2SF x with
  | S754_finite s m e =>
      let a := PrimFloat.abs x in
      let t := scaled 1000 m e in
      let c := if reads_back t a then half_up t
               else if reads_back (t + 1) a then half_up (t + 1)
               else ((scaled 200 m e + 1) / 2)%Z in
      if s then (- c)%Z else c
  | _ => 0%Z
  end.

(** The column takes the number: it is finite, and what it rounds to has at
    most [p] digits. *)
Definition fits_DECIMAL (p : Z) (x : float) : bool :=
  match Prim2SF x with
  | S754_zero _ | S754_finite _ _ _ => (Z.abs (DECIMAL_2 x) <? 10 ^ p)%Z
  | _ => false
  end.

Module Course.
(** The columns the payment routes read or write.  The primary key [id]
    is the key of the table; [title], [description] and [thumbnail] only
    feed the provider's line item. *)
Record t := mk {
  price : decimal;
  enrollmentCount : Z;
  instructorId : string;
}.

Definition set_enrollmentCount (n : Z) (c : t) : t :=
  {| price := price c; enrollmentCount := n; instructorId := instructorId c |}.
End Course.

Module Enrollment.
(** [id] is a fresh UUID per row: a row is identified by its position in
    the table.  [None] stands for JavaScript's [undefined]/[null]. *)
Record t := mk {
  studentId : option string;
  courseId : option string;
  progress : decimal;
  completedAt : option Z;
  lastAccessedAt : option Z;
}.
End Enrollment.

Module Payment.
Inductive Method := stripe | paypal.
Inductive Status := pending | completed | failed | refunded.

(** A row of the table: [platformFee] and [instructorPayout] are
    [DECIMAL(10,2)] columns. *)
Record t := mk {
  studentId : option string;
  courseId : option string;
  instructorId : option string;
  amount : decimal;
  currency : string;
  paymentMethod : Method;
  transactionId : option string;
  status : Status;
  platformFee : decimal;
  instructorPayout : decimal;
}.
End Payment.

Module PaymentValues.
(** The object handed to [Payment.create]: [platformFee] and
    [instructorPayout] are JavaScript numbers. *)
Record t := mk {
  studentId : option string;
  courseId : option string;
  instructorId : option string;
  amount : decimal;
  currency : string;
  paymentMethod : Payment.Method;
  transactionId : option string;
  status : Payment.Status;
  platformFee : float;
  instructorPayout : float;
}.
End PaymentValues.

(** The row the INSERT leaves for the values: the two numbers rounded by
    their columns.  (A fee and a payout computed from a price that a
    [DECIMAL(10,2)] column holds are within the range of theirs.) *)
Definition inserted (v : PaymentValues.t) : Payment.t :=
  {| Payment.studentId := PaymentValues.studentId v;
     Payment.courseId := PaymentValues.courseId v;
     Payment.instructorId := PaymentValues.instructorId v;
     Payment.amount := PaymentValues.amount v;
     Payment.currency := PaymentValues.currency v;
     Payment.paymentMethod := PaymentValues.paymentMethod v;
     Payment.transactionId := PaymentValues.transactionId v;
     Payment.status := PaymentValues.status v;
     Payment.platformFee := DECIMAL_2 (PaymentValues.platformFee v);
     Payment.instructorPayout := DECIMAL_2 (PaymentValues.instructorPayout v) |}.

(** ** The payment provider *)

Module Stripe.
Record Metadata := mkMetadata {
  courseId : option string;
  studentId : option string;
  instructorId : option string;
}.

(** A checkout session object.  [metadata] is [None] when the object
    carries none ([null]).  [amount_total] is the amount the provider
    charged, in cents; every session carries it, and no handler of this
    repository reads it. *)
Record Session := mkSession {
  metadata : option Metadata;
  payment_intent : option string;
  amount_total : Z;
}.

Record Event := mkEvent {
  type : string;
  data_object : Session;
}.

(** What [stripe.webhooks.constructEvent(req.body, sig, secret)] did for
    one delivery: it returned the event, or it threw an error with a
    message (bad signature, timestamp outside the tolerance, ...). *)
Inductive Construct :=
| Constructed (event : Event)
| SignatureVerificationError (message : string).

(** What [stripe.checkout.sessions.create] does when it is called: it
    creates the session and returns its URL, or it throws. *)
Inductive Create :=
| Created (url : string)
| CreateError.
End Stripe.

(** ** The world: durable store, provider, and the store's behaviour *)

Inductive Query :=
| Course_findByPk_query
| Course_save_query
| Enrollment_findOne_query
| Enrollment_create_query
| Payment_create_query.

Record World := mkWorld {
  Courses : gmap string Course.t;
  Payments : list Payment.t;
  Enrollments : list Enrollment.t;
  (** metadata of the checkout sessions created at the provider *)
  checkoutSessions : list Stripe.Metadata;
  (** queries sent to the store so far, oldest first *)
  queries : list Query;
  (** the store's answer to the queries to come: [true] refuses the query
      (it throws and writes nothing); past the end every query is served *)
  refusals : list bool;
  (** the store's choice, for the lookups to come that have no ORDER BY,
      among the rows that match: a position in their list (the first row
      past its end) *)
  choices : list nat;
}.

Definition set_Courses (f : gmap string Course.t -> gmap string Course.t) (w : World) : World :=
  mkWorld (f (Courses w)) (Payments w) (Enrollments w) (checkoutSessions w) (queries w) (refusals w)
          (choices w).

Definition set_Payments (f : list Payment.t -> list Payment.t) (w : World) : World :=
  mkWorld (Courses w) (f (Payments w)) (Enrollments w) (checkoutSessions w) (queries w) (refusals w)
          (choices w).

Definition set_Enrollments (f : list Enrollment.t -> list Enrollment.t) (w : World) : World :=
  mkWorld (Courses w) (Payments w) (f (Enrollments w)) (checkoutSessions w) (queries w) (refusals w)
          (choices w).

Definition set_checkoutSessions (f : list Stripe.Metadata -> list Stripe.Metadata) (w : World) : World :=
  mkWorld (Courses w) (Payments w) (Enrollments w) (f (checkoutSessions w)) (queries w) (refusals w)
          (choices w).

(** ** Handlers as state-and-exception computations *)

Inductive Error :=
| TypeError         (** a property read on [null] *)
| ValidationError   (** a [allowNull: false] column left empty *)
| StorageError      (** the store refused the query *)
| ProviderError.    (** the provider's API call failed *)

Inductive Result (A : Type) :=
| Ok (a : A)
| Throw (e : Error).
Arguments Ok {A} a.
Arguments Throw {A} e.

Definition M (A : Type) : Type := World -> Result A * World.

Definition ret {A} (a : A) : M A := fun w => (Ok a, w).

Definition throw {A} (e : Error) : M A := fun w => (Throw e, w).

Definition bind {A B} (m : M A) (k : A -> M B) : M B :=
  fun w => match m w with
           | (Ok a, w') => k a w'
           | (Throw e, w') => (Throw e, w')
           end.

(** [try { m } catch (error) { h error }]: the handler continues from the
    world the exception left. *)
Definition try_catch {A} (m : M A) (h : Error -> M A) : M A :=
  fun w => match m w with
           | (Ok a, w') => (Ok a, w')
           | (Throw e, w') => h e w'
           end.

Definition get : M World := fun w => (Ok w, w).

Definition modify (f : World -> World) : M unit := fun w => (Ok tt, f w).

Declare Scope handler_scope.
Delimit Scope handler_scope with handler.
Notation "'let!' x ':=' m 'in' k" := (bind m (fun x => k))
  (at level 10, x name, m at level 100, k at level 200) : handler_scope.
Notation "m1 ';;;' m2" := (bind m1 (fun _ => m2))
  (at level 100, m2 at level 200, right associativity) : handler_scope.
Local Open Scope handler_scope.

Definition exec {A} (m : M A) (w : World) : World := snd (m w).
Definition eval {A} (m : M A) (w : World) : Result A := fst (m w).

(** One query sent to the store: logged, then served or refused. *)
Definition query (q : Query) : M unit :=
  fun w =>
    let w' := mkWorld (Courses w) (Payments w) (Enrollments w) (checkoutSessions w)
                      (queries w ++ [q]) (tail (refusals w)) (choices w) in
    match refusals w with
    | true :: _ => (Throw StorageError, w')
    | _ => (Ok tt, w')
    end.

(** ** Repository operations (Sequelize) *)

(** [Course.findByPk(pk)]: [null] at once for an absent key. *)
Definition Course_findByPk (pk : option string) : M (option Course.t) :=
  match pk with
  | None => ret None
  | Some k =>
      query Course_findByPk_query ;;;
      let! w := get in
      ret (Courses w !! k)
  end.

(** [course.save()] after [course.enrollmentCount += 1]: an UPDATE of the
    changed column of the row whose primary key is [pk]. *)
Definition Course_save (pk : string) (course : Course.t) : M unit :=
  query Course_save_query ;;;
  modify (set_Courses (alter (Course.set_enrollmentCount (Course.enrollmentCount course)) pk)).

Definition column_is (value : string) (column : option string) : bool :=
  match column with
  | Some x => String.eqb x value
  | None => false
  end.

Definition Enrollment_matches (studentId courseId : string) (e : Enrollment.t) : bool :=
  column_is studentId (Enrollment.studentId e) && column_is courseId (Enrollment.courseId e).

(** The rows satisfying [f], each with its position in the table, which
    stands for its [id]. *)
Fixpoint matching_from (i : nat) (f : Enrollment.t -> bool) (rows : list Enrollment.t)
    : list (nat * Enrollment.t) :=
  match rows with
  | [] => []
  | e :: rows' =>
      if f e then (i, e) :: matching_from (S i) f rows' else matching_from (S i) f rows'
  end.

(** One of the elements of [l], none if there is none. *)
Definition choose {A} (pick : nat) (l : list A) : option A :=
  match l with
  | [] => None
  | x :: _ => Some (nth pick l x)
  end.

(** The next choice of the store. *)
Definition store_choice : M nat :=
  fun w =>
    (Ok (hd 0 (choices w)),
     mkWorld (Courses w) (Payments w) (Enrollments w) (checkoutSessions w)
             (queries w) (refusals w) (tail (choices w))).

(** [Enrollment.findOne({ where: { studentId, courseId } })]: the query has
    no ORDER BY, and the store returns any one of the rows of the pair. *)
Definition Enrollment_findOne (studentId courseId : string)
    : M (option (nat * Enrollment.t)) :=
  query Enrollment_findOne_query ;;;
  let! pick := store_choice in
  let! w := get in
  ret (choose pick (matching_from 0 (Enrollment_matches studentId courseId) (Enrollments w))).

(** [Enrollment.create(values)]: the [allowNull: false] columns are
    validated before the INSERT is sent. *)
Definition Enrollment_create (e : Enrollment.t) : M unit :=
  match Enrollment.studentId e, Enrollment.courseId e with
  | Some _, Some _ =>
      query Enrollment_create_query ;;;
      modify (set_Enrollments (fun rows => rows ++ [e]))
  | _, _ => throw ValidationError
  end.

(** [Payment.create(values)]: the [allowNull: false] columns are validated,
    then the INSERT is sent, and the columns round what they are given. *)
Definition Payment_create (v : PaymentValues.t) : M unit :=
  match PaymentValues.studentId v, PaymentValues.courseId v, PaymentValues.instructorId v with
  | Some _, Some _, Some _ =>
      query Payment_create_query ;;;
      modify (set_Payments (fun rows => rows ++ [inserted v]))
  | _, _, _ => throw ValidationError
  end.

(** [stripe.checkout.sessions.create({ ..., metadata })] *)
Definition stripe_checkout_sessions_create (outcome : Stripe.Create) (md : Stripe.Metadata) : M string :=
  match outcome with
  | Stripe.Created url =>
      modify (set_checkoutSessions (fun ss => ss ++ [md])) ;;;
      ret url
  | Stripe.CreateError => throw ProviderError
  end.

(** ** HTTP responses *)

Inductive Body :=
| Json_message (message : string)      (** [{ message }] *)
| Json_sessionUrl (sessionUrl : string) (** [{ sessionUrl }] *)
| Json_received (received : bool)      (** [{ received }] *)
| Text (text : string).                (** [res.send(text)] *)

Record Response := mkResponse {
  status : nat;
  body : Body;
}.

(** [res.json(b)] answers 200 unless [res.status] was called. *)
Definition res_json (b : Body) : Response := mkResponse 200 b.

(** ** routes/payments.js *)

(** The fee split of the webhook, lines 69-70.  The literal [0.15] denotes
    the double nearest to it, here as in JavaScript. *)
#[local] Set Warnings "-inexact-float".

Definition platformFee (course : Course.t) : float :=
  PrimFloat.mul (ToNumber (Course.price course)) 0.15%float.

Definition instructorPayout (course : Course.t) : float :=
  PrimFloat.sub (ToNumber (Course.price course)) (platformFee course).

(** The values of [Payment.create], lines 72-83; [md] holds the three
    constants destructured from [session.metadata] at line 65. *)
Definition payment_values (md : Stripe.Metadata) (session : Stripe.Session)
    (course : Course.t) : PaymentValues.t :=
  {| PaymentValues.studentId := Stripe.studentId md;
     PaymentValues.courseId := Stripe.courseId md;
     PaymentValues.instructorId := Stripe.instructorId md;
     PaymentValues.amount := Course.price course;
     PaymentValues.currency := "USD";
     PaymentValues.paymentMethod := Payment.stripe;
     PaymentValues.transactionId := Stripe.payment_intent session;
     PaymentValues.status := Payment.completed;
     PaymentValues.platformFee := platformFee course;
     PaymentValues.instructorPayout := instructorPayout course |}.

(** The Payment row a served [Payment.create] leaves. *)
Definition payment_row (md : Stripe.Metadata) (session : Stripe.Session)
    (course : Course.t) : Payment.t :=
  inserted (payment_values md session course).

(** The row of [Enrollment.create], lines 85-89. *)
Definition enrollment_row (md : Stripe.Metadata) : Enrollment.t :=
  {| Enrollment.studentId := Stripe.studentId md;
     Enrollment.courseId := Stripe.courseId md;
     Enrollment.progress := 0%Z;
     Enrollment.completedAt := None;
     Enrollment.lastAccessedAt := None |}.

(** [course.enrollmentCount += 1] on the instance in memory, line 91. *)
Definition increment (course : Course.t) : Course.t :=
  Course.set_enrollmentCount (Course.enrollmentCount course + 1)%Z course.

(** The body of the [try] block of the webhook, lines 68-94. *)
Definition process_completed (md : Stripe.Metadata) (session : Stripe.Session) : M unit :=
  let! found := Course_findByPk (Stripe.courseId md) in
  match found, Stripe.courseId md with
  | Some course, Some pk =>
      Payment_create (payment_values md session course) ;;;
      Enrollment_create (enrollment_row md) ;;;
      Course_save pk (increment course)
  | _, _ => throw TypeError   (* [course.price] on [null] *)
  end.

(** [router.post('/webhook', ...)], lines 49-101.  A [Throw] is an
    exception that leaves the handler: no response is sent.  Line 65
    destructures [session.metadata] before the [try] of line 67 opens. *)
Definition webhook (constructEvent : Stripe.Construct) : M Response :=
  match constructEvent with
  | Stripe.SignatureVerificationError message =>
      ret (mkResponse 400 (Text ("Webhook Error: " ++ message)))
  | Stripe.Constructed event =>
      (if String.eqb (Stripe.type event) "checkout.session.completed"
       then
         let session := Stripe.data_object event in
         match Stripe.metadata session with
         | None => throw TypeError   (* destructuring [null], line 65 *)
         | Some md =>
             try_catch (process_completed md session)
                       (fun _ => ret tt)   (* [console.error] *)
         end
       else ret tt) ;;;
      ret (res_json (Json_received true))
  end.

(** [router.post('/create-checkout', auth, requireRole('student'), ...)],
    lines 8-47: the handler proper, reached with [req.userId] set by the
    middleware. *)
Definition create_checkout (userId : string) (courseId : option string)
    (create : Stripe.Create) : M Response :=
  try_catch
    (let! found := Course_findByPk courseId in
     match found, courseId with
     | Some course, Some pk =>
         let! existing := Enrollment_findOne userId pk in
         match existing with
         | Some _ => ret (mkResponse 400 (Json_message "Already enrolled"))
         | None =>
             let! url := stripe_checkout_sessions_create create
                           {| Stripe.courseId := Some pk;
                              Stripe.studentId := Some userId;
                              Stripe.instructorId := Some (Course.instructorId course) |} in
             ret (res_json (Json_sessionUrl url))
         end
     | _, _ => ret (mkResponse 404 (Json_message "Course not found"))
     end)
    (fun _ => ret (mkResponse 500 (Json_message "Checkout failed"))).

(** ** Sequences of requests *)

Inductive Request :=
| POST_create_checkout (userId : string) (courseId : option string) (create : Stripe.Create)
| POST_webhook (constructEvent : Stripe.Construct).

Definition handle (r : Request) : M Response :=
  match r with
  | POST_create_checkout userId courseId create => create_checkout userId courseId create
  | POST_webhook constructEvent => webhook constructEvent
  end.

(** The requests handled one after another, each to its end. *)
Fixpoint serve (rs : list Request) (w : World) : World :=
  match rs with
  | [] => w
  | r :: rs' => serve rs' (exec (handle r) w)
  end.

(** The same notification delivered [n] times, one delivery after another. *)
Definition redeliver (n : nat) (constructEvent : Stripe.Construct) (w : World) : World :=
  Nat.iter n (exec (webhook constructEvent)) w.

(** ** Concurrent invocations of the webhook

    Node runs a handler up to its next [await] without interruption, and
    other invocations run while it waits.  An invocation in flight is the
    query it waits for, with the local variables of its continuation. *)

Inductive Invocation :=
| Await_Course_findByPk (md : Stripe.Metadata) (session : Stripe.Session)
| Await_Payment_create (md : Stripe.Metadata) (session : Stripe.Session) (pk : string)
    (course : Course.t)
| Await_Enrollment_create (md : Stripe.Metadata) (pk : string) (course : Course.t)
| Await_course_save (pk : string) (course : Course.t)
| Responded (r : Response)
| Thrown (e : Error).   (** the exception left the handler: no response *)

(** The [catch] of the webhook followed by line 100. *)
Definition caught (m : M Invocation) (w : World) : Invocation * World :=
  match m w with
  | (Ok t, w') => (t, w')
  | (Throw _, w') => (Responded (res_json (Json_received true)), w')
  end.

(** The synchronous start of the handler, up to its first [await]. *)
Definition start (constructEvent : Stripe.Construct) : Invocation :=
  match constructEvent with
  | Stripe.SignatureVerificationError message =>
      Responded (mkResponse 400 (Text ("Webhook Error: " ++ message)))
  | Stripe.Constructed event =>
      if String.eqb (Stripe.type event) "checkout.session.completed"
      then
        match Stripe.metadata (Stripe.data_object event) with
        | None => Thrown TypeError
        | Some md => Await_Course_findByPk md (Stripe.data_object event)
        end
      else Responded (res_json (Json_received true))
  end.

(** The awaited query is served, and the handler runs to its next [await]. *)
Definition step (t : Invocation) (w : World) : Invocation * World :=
  match t with
  | Await_Course_findByPk md session =>
      caught (let! found := Course_findByPk (Stripe.courseId md) in
              match found, Stripe.courseId md with
              | Some course, Some pk => ret (Await_Payment_create md session pk course)
              | _, _ => throw TypeError
              end) w
  | Await_Payment_create md session pk course =>
      caught (Payment_create (payment_values md session course) ;;;
              ret (Await_Enrollment_create md pk course)) w
  | Await_Enrollment_create md pk course =>
      caught (Enrollment_create (enrollment_row md) ;;;
              ret (Await_course_save pk (increment course))) w
  | Await_course_save pk course =>
      caught (Course_save pk course ;;;
              ret (Responded (res_json (Json_received true)))) w
  | Responded r => (Responded r, w)
  | Thrown e => (Thrown e, w)
  end.

Fixpoint steps (n : nat) (t : Invocation) (w : World) : Invocation * World :=
  match n with
  | O => (t, w)
  | S n' => let (t', w') := step t w in steps n' t' w'
  end.

(** A schedule names, step after step, the invocation that runs next. *)
Fixpoint interleave (schedule : list nat) (invocations : list Invocation) (w : World)
    : list Invocation * World :=
  match schedule with
  | [] => (invocations, w)
  | i :: schedule' =>
      match invocations !! i with
      | Some t =>
          let (t', w') := step t w in
          interleave schedule' (<[i := t']> invocations) w'
      | None => interleave schedule' invocations w
      end
  end.

(** ** Vocabulary of the statements *)

(** The world after the queries [qs] were sent and served. *)
Definition after_queries (qs : list Query) (w : World) : World :=
  mkWorld (Courses w) (Payments w) (Enrollments w) (checkoutSessions w)
          (queries w ++ qs) (skipn (length qs) (refusals w)) (choices w).

(** The world after the store has made one choice. *)
Definition after_choice (w : World) : World :=
  mkWorld (Courses w) (Payments w) (Enrollments w) (checkoutSessions w)
          (queries w) (refusals w) (tail (choices w)).

(** The row the next lookup of the pair returns, with its position. *)
Definition next_found (studentId pk : string) (w : World) : option (nat * Enrollment.t) :=
  choose (hd 0 (choices w))
         (matching_from 0 (Enrollment_matches studentId pk) (Enrollments w)).

(** How an invocation ends for the outcome of the handler: with the
    response sent, or with the exception that left the handler. *)
Definition ended (r : Result Response) : Invocation :=
  match r with
  | Ok response => Responded response
  | Throw e => Thrown e
  end.

(** The store serves the next [n] queries. *)
Definition serves (n : nat) (w : World) : bool :=
  forallb negb (firstn n (refusals w)).

(** The position, among the queries to come, of the first one the store
    refuses. *)
Fixpoint first_refused (refusals : list bool) : option nat :=
  match refusals with
  | [] => None
  | true :: _ => Some 0
  | false :: refusals' => option_map S (first_refused refusals')
  end.

(** A completed checkout whose metadata names a course, a student and an
    instructor. *)
Definition purchase (pk studentId instructorId : string) (event : Stripe.Event) : Prop :=
  Stripe.type event = "checkout.session.completed" /\
  Stripe.metadata (Stripe.data_object event) =
    Some (Stripe.mkMetadata (Some pk) (Some studentId) (Some instructorId)).

Definition enrolled (studentId pk : string) (w : World) : Prop :=
  exists e, In e (Enrollments w) /\
            Enrollment.studentId e = Some studentId /\ Enrollment.courseId e = Some pk.

Definition enrollments_of (studentId pk : string) (w : World) : list Enrollment.t :=
  List.filter (Enrollment_matches studentId pk) (Enrollments w).

Definition payments_of (transactionId : string) (w : World) : list Payment.t :=
  List.filter (fun p => column_is transactionId (Payment.transactionId p)) (Payments w).

Definition enrollmentCount_of (pk : string) (w : World) : option Z :=
  Course.enrollmentCount <$> Courses w !! pk.

Definition acknowledged : Response := res_json (Json_received true).

(** The event with another amount charged. *)
Definition with_amount_total (a : Z) (event : Stripe.Event) : Stripe.Event :=
  let s := Stripe.data_object event in
  Stripe.mkEvent (Stripe.type event)
    (Stripe.mkSession (Stripe.metadata s) (Stripe.payment_intent s) a).

(** ** Scenarios *)

(** Primary keys are UUIDs. *)
Definition course_1 : string := "0b9f6c4e-6a53-4c1e-9a40-2f1d7f3a5c01".
Definition student_1 : string := "5e2a9d10-3b7c-4f8e-8d21-7c4b1a6e9f02".
Definition student_2 : string := "a4c81f77-92d0-4b35-b6e8-1d3f5a7c9e03".
Definition instructor_1 : string := "c7d2e8a1-4f60-4a9b-8c13-9e5b2d4f6a04".

Definition a_course (price : decimal) : Course.t :=
  Course.mk price 0 instructor_1.
Arguments a_course price%_Z.

Definition a_world (price : decimal) (refusals : list bool) : World :=
  mkWorld {[ course_1 := a_course price ]} [] [] [] [] refusals [].
Arguments a_world price%_Z refusals.

(** The world [w] with the store about to make the choices [picks]. *)
Definition with_choices (picks : list nat) (w : World) : World :=
  mkWorld (Courses w) (Payments w) (Enrollments w) (checkoutSessions w)
          (queries w) (refusals w) picks.

(** A completed checkout whose session carries no metadata. *)
Definition a_bare_completion : Stripe.Event :=
  Stripe.mkEvent "checkout.session.completed" (Stripe.mkSession None (Some "pi_0") 4999).

Definition a_completion (studentId transactionId : string) (amount_total : Z) : Stripe.Event :=
  Stripe.mkEvent "checkout.session.completed"
    (Stripe.mkSession
       (Some (Stripe.mkMetadata (Some course_1) (Some studentId) (Some instructor_1)))
       (Some transactionId) amount_total).
Arguments a_completion studentId transactionId amount_total%_Z.


(** ** routes/courses.js: the routes that read or write Enrollment rows *)

(** A query of the course routes that is not one of the five of the payment
    routes: the store serves or refuses it in the same way; [queries]
    stays the log of those five. *)
Definition course_query : M unit :=
  fun w =>
    let w' := mkWorld (Courses w) (Payments w) (Enrollments w) (checkoutSessions w)
                      (queries w) (tail (refusals w)) (choices w) in
    match refusals w with
    | true :: _ => (Throw StorageError, w')
    | _ => (Ok tt, w')
    end.

Definition of_course (courseId : string) (e : Enrollment.t) : bool :=
  column_is courseId (Enrollment.courseId e).

(** [Enrollment.count({ where: { courseId } })] *)
Definition Enrollment_count (courseId : string) : M nat :=
  course_query ;;;
  let! w := get in
  ret (length (List.filter (of_course courseId) (Enrollments w))).

(** [course.destroy()]: a DELETE of the row whose primary key is [pk]. *)
Definition Course_destroy (pk : string) : M unit :=
  course_query ;;;
  modify (set_Courses (delete pk)).

(** Lines 157-159 of courses.js, as the row takes them: [progress] is the
    number of the request body, which the [DECIMAL(5,2)] column rounds;
    [progress >= 100] compares the number itself; [accessed] and
    [completed] are the two readings of the clock. *)
Definition record_progress (progress : float) (accessed completed : Z)
    (enrollment : Enrollment.t) : Enrollment.t :=
  {| Enrollment.studentId := Enrollment.studentId enrollment;
     Enrollment.courseId := Enrollment.courseId enrollment;
     Enrollment.progress := DECIMAL_2 progress;
     Enrollment.completedAt :=
       if PrimFloat.leb 100%float progress then Some completed
       else Enrollment.completedAt enrollment;
     Enrollment.lastAccessedAt := Some accessed |}.

(** [enrollment.save()] on the instance [Enrollment.findOne] returned, with
    the assignments of lines 157-159: an UPDATE of the row of that [id].
    The store refuses a progress its [DECIMAL(5,2)] column cannot take. *)
Definition Enrollment_save (id : nat) (progress : float) (accessed completed : Z) : M unit :=
  course_query ;;;
  if fits_DECIMAL 5 progress
  then modify (set_Enrollments
                 (fun rows =>
                    match rows !! id with
                    | Some row => <[id := record_progress progress accessed completed row]> rows
                    | None => rows
                    end))
  else throw StorageError.

(** [router.delete('/:id', auth, requireRole('instructor'), ...)],
    courses.js lines 100-116. *)
Definition delete_course (userId pk : string) : M Response :=
  try_catch
    (let! found := Course_findByPk (Some pk) in
     match found with
     | None => ret (mkResponse 404 (Json_message "Course not found"))
     | Some course =>
         if negb (String.eqb (Course.instructorId course) userId)
         then ret (mkResponse 403 (Json_message "Not authorized"))
         else
           let! enrollmentCount := Enrollment_count pk in
           if (0 <? enrollmentCount)%nat
           then ret (mkResponse 400 (Json_message "Cannot delete course with enrollments"))
           else
             Course_destroy pk ;;;
             ret (res_json (Json_message "Course deleted"))
     end)
    (fun _ => ret (mkResponse 500 (Json_message "Failed to delete course"))).

Inductive ProgressResponse :=
| Progress_refused (r : Response)
| Progress_updated (id : nat).
    (** 200 [{ message: 'Progress updated', enrollment }], the instance
        named by the [id] of its row *)

(** [router.put('/:id/progress', auth, requireRole('student'), ...)],
    courses.js lines 148-166; [progress] is the number of the request
    body. *)
Definition update_progress (userId pk : string) (progress : float)
    (accessed completed : Z) : M ProgressResponse :=
  try_catch
    (let! found := Enrollment_findOne userId pk in
     match found with
     | None => ret (Progress_refused (mkResponse 404 (Json_message "Not enrolled")))
     | Some (id, _) =>
         Enrollment_save id progress accessed completed ;;;
         ret (Progress_updated id)
     end)
    (fun _ => ret (Progress_refused (mkResponse 500 (Json_message "Failed to update progress")))).
Arguments update_progress userId pk progress%_float accessed%_Z completed%_Z.

(** Requests to the two routers, handled one after another. *)
Inductive ApiRequest :=
| To_payments (r : Request)
| DELETE_course (userId pk : string)
| PUT_progress (userId pk : string) (progress : float) (accessed completed : Z).

Definition api (r : ApiRequest) (w : World) : World :=
  match r with
  | To_payments r' => exec (handle r') w
  | DELETE_course userId pk => exec (delete_course userId pk) w
  | PUT_progress userId pk progress accessed completed =>
      exec (update_progress userId pk progress accessed completed) w
  end.

Fixpoint serve_api (rs : list ApiRequest) (w : World) : World :=
  match rs with
  | [] => w
  | r :: rs' => serve_api rs' (api r w)
  end.

(** The completed-checkout event of a session created with metadata [md]. *)
Definition completion_of (md : Stripe.Metadata) (payment_intent : option string)
    (amount_total : Z) : Stripe.Event :=
  Stripe.mkEvent "checkout.session.completed"
    (Stripe.mkSession (Some md) payment_intent amount_total).
Arguments completion_of md payment_intent amount_total%_Z.

(** *** Consistency of the tables *)

Definition payments_for (studentId pk : string) (w : World) : list Payment.t :=
  List.filter (fun p => column_is studentId (Payment.studentId p) &&
                        column_is pk (Payment.courseId p)) (Payments w).

(** Every Enrollment row names a student and a course that exists. *)
Definition enrollments_have_courses (w : World) : Prop :=
  forall e, In e (Enrollments w) ->
    exists studentId pk : string,
      Enrollment.studentId e = Some studentId /\ Enrollment.courseId e = Some pk /\
      is_Some (Courses w !! pk).

(** No pair has more Enrollment rows than Payment rows. *)
Definition enrollments_are_paid (w : World) : Prop :=
  forall studentId pk : string,
    length (enrollments_of studentId pk w) <= length (payments_for studentId pk w).

(** No counter exceeds the number of Enrollment rows of its course. *)
Definition counters_are_backed (w : World) : Prop :=
  forall (pk : string) (course : Course.t),
    Courses w !! pk = Some course ->
    (Course.enrollmentCount course <=
       Z.of_nat (length (List.filter (of_course pk) (Enrollments w))))%Z.

(** What one request can do to the tables: nothing; the writes of the
    webhook, as far as they got; the deletion of a course that no
    Enrollment row names; a progress update of one Enrollment row. *)
Inductive table_step (w w' : World) : Prop :=
| nothing_written :
    Courses w' = Courses w -> Payments w' = Payments w ->
    Enrollments w' = Enrollments w ->
    table_step w w'
| payment_written (md : Stripe.Metadata) (session : Stripe.Session)
    (pk studentId instructorId : string) (course : Course.t) :
    md = Stripe.mkMetadata (Some pk) (Some studentId) (Some instructorId) ->
    Courses w !! pk = Some course ->
    Payments w' = Payments w ++ [payment_row md session course] ->
    (Enrollments w' = Enrollments w /\ Courses w' = Courses w) \/
    (Enrollments w' = Enrollments w ++ [enrollment_row md] /\
     (Courses w' = Courses w \/
      Courses w' =
        alter (Course.set_enrollmentCount (Course.enrollmentCount course + 1)) pk
              (Courses w))) ->
    table_step w w'
| course_deleted (pk : string) :
    List.filter (of_course pk) (Enrollments w) = [] ->
    Courses w' = delete pk (Courses w) -> Payments w' = Payments w ->
    Enrollments w' = Enrollments w ->
    table_step w w'
| progress_recorded (before after : list Enrollment.t) (e e' : Enrollment.t) :
    Enrollments w = before ++ e :: after ->
    Enrollments w' = before ++ e' :: after ->
    Enrollment.studentId e' = Enrollment.studentId e ->
    Enrollment.courseId e' = Enrollment.courseId e ->
    Courses w' = Courses w -> Payments w' = Payments w ->
    table_step w w'.

(** A run of the scenario: a checkout, its completion delivered twice, a
    progress report, a request to delete the course, and the completion of
    another student's purchase. *)
Definition a_run : list ApiRequest :=
  [To_payments (POST_create_checkout student_1 (Some course_1)
                  (Stripe.Created "https://checkout/1"));
   To_payments (POST_webhook (Stripe.Constructed (a_completion student_1 "pi_1" 4999)));
   To_payments (POST_webhook (Stripe.Constructed (a_completion student_1 "pi_1" 4999)));
   PUT_progress student_1 course_1 100%float 1%Z 2%Z;
   DELETE_course instructor_1 course_1;
   To_payments (POST_webhook (Stripe.Constructed (a_completion student_2 "pi_2" 4999)))].

(** * Properties *)

(** ** The store and the handlers, step by step *)

Lemma query_served (q : Query) (n : nat) (w : World) :
  serves (S n) w = true ->
  query q w = (Ok tt, after_queries [q] w) /\ serves n (after_queries [q] w) = true.
Proof.
  unfold serves, query, after_queries. destruct w as [cs ps es ss qs rs ch]. simpl.
  destruct rs as [|[] rs]; simpl; try discriminate.
  - intros _. split; [reflexivity|]. now destruct n.
  - intros H. split; [reflexivity|exact H].
Qed.

Lemma serves_skipn (n m : nat) (w w' : World) :
  serves (n + m) w = true -> refusals w' = skipn n (refusals w) -> serves m w' = true.
Proof.
  unfold serves. intros H ->. revert n H.
  generalize (refusals w) as rs. intros rs n. revert rs.
  induction n as [|n IH]; intros rs H; [exact H|].
  destruct rs as [|r rs]; [now destruct m|]. simpl in H |- *.
  apply andb_prop in H as [_ H]. now apply IH.
Qed.

Lemma serves_le (n m : nat) (w : World) :
  n <= m -> serves m w = true -> serves n w = true.
Proof.
  unfold serves. generalize (refusals w) as rs. intros rs Hle. revert m rs Hle.
  induction n as [|n IH]; intros m rs Hle H; [reflexivity|].
  destruct m as [|m]; [lia|]. destruct rs as [|r rs]; [reflexivity|].
  simpl in H |- *. apply andb_prop in H as [-> H]. simpl. apply (IH m); [lia|exact H].
Qed.

Lemma column_is_refl (s : string) : column_is s (Some s) = true.
Proof. apply String.eqb_refl. Qed.

Lemma filter_repeat_true {A} (f : A -> bool) (x : A) (n : nat) :
  f x = true -> List.filter f (repeat x n) = repeat x n.
Proof. intros H. induction n as [|n IH]; simpl; [reflexivity|]. now rewrite H, IH. Qed.

(** Unfolds a handler over a world given by its fields, leaving the tables
    and their lookups folded. *)
Ltac run :=
  cbv beta iota zeta delta
    [webhook create_checkout process_completed try_catch bind ret throw get modify query
     Course_findByPk Course_save Enrollment_findOne Enrollment_create Payment_create
     stripe_checkout_sessions_create payment_row enrollment_row increment
     set_Courses set_Payments set_Enrollments set_checkoutSessions
     Courses Payments Enrollments checkoutSessions queries refusals
     Stripe.metadata Stripe.payment_intent Stripe.amount_total Stripe.type Stripe.data_object
     Stripe.courseId Stripe.studentId Stripe.instructorId
     Payment.studentId Payment.courseId Payment.instructorId
     Enrollment.studentId Enrollment.courseId
     payment_values store_choice choices next_found
     PaymentValues.studentId PaymentValues.courseId PaymentValues.instructorId
     String.eqb Ascii.eqb Bool.eqb tail
     exec eval fst snd caught step start acknowledged res_json after_queries
     serves firstn forallb negb andb].

(** A purchase of an existing course, with the store serving the four
    queries: the handler writes the Payment row, the Enrollment row and the
    incremented counter, and acknowledges. *)
Lemma webhook_purchase (w : World) (event : Stripe.Event)
    (pk studentId instructorId : string) (course : Course.t) :
  purchase pk studentId instructorId event ->
  Courses w !! pk = Some course ->
  serves 4 w = true ->
  let md := Stripe.mkMetadata (Some pk) (Some studentId) (Some instructorId) in
  let session := Stripe.data_object event in
  webhook (Stripe.Constructed event) w =
    (Ok acknowledged,
     mkWorld (alter (Course.set_enrollmentCount (Course.enrollmentCount course + 1)) pk (Courses w))
             (Payments w ++ [payment_row md session course])
             (Enrollments w ++ [enrollment_row md])
             (checkoutSessions w)
             (queries w ++ [Course_findByPk_query; Payment_create_query;
                            Enrollment_create_query; Course_save_query])
             (skipn 4 (refusals w)) (choices w)).
Proof.
  intros [Hty Hmd] Hc Hs. destruct event as [ty [md pi amt]].
  destruct w as [cs ps es ss qs rs ch]. simpl in Hty, Hmd, Hc. subst ty md.
  destruct rs as [|[] [|[] [|[] [|[] rs]]]]; try discriminate Hs; clear Hs.
  all: run; rewrite Hc; run; rewrite <- !app_assoc; reflexivity.
Qed.

Lemma redeliver_S (n : nat) (c : Stripe.Construct) (w : World) :
  redeliver (S n) c w = redeliver n c (exec (webhook c) w).
Proof.
  unfold redeliver. induction n as [|n IH]; [reflexivity|].
  rewrite Nat.iter_succ, IH. reflexivity.
Qed.

Lemma redeliver_purchase (n : nat) (w : World) (event : Stripe.Event)
    (pk studentId instructorId : string) (course : Course.t) :
  purchase pk studentId instructorId event ->
  Courses w !! pk = Some course ->
  serves (4 * n) w = true ->
  let md := Stripe.mkMetadata (Some pk) (Some studentId) (Some instructorId) in
  let session := Stripe.data_object event in
  let w' := redeliver n (Stripe.Constructed event) w in
  Payments w' = Payments w ++ repeat (payment_row md session course) n /\
  Enrollments w' = Enrollments w ++ repeat (enrollment_row md) n /\
  Courses w' !! pk =
    Some (Course.set_enrollmentCount (Course.enrollmentCount course + Z.of_nat n) course).
Proof.
  intros Hp. revert w course. induction n as [|n IH]; intros w course Hc Hs; cbv zeta.
  - simpl. rewrite !app_nil_r, Z.add_0_r. split; [reflexivity|]. split; [reflexivity|].
    rewrite Hc. now destruct course.
  - rewrite redeliver_S. unfold exec.
    assert (H4 : serves 4 w = true) by (apply (serves_le 4 (4 * S n)); [lia|exact Hs]).
    rewrite (webhook_purchase w event pk studentId instructorId course Hp Hc H4). simpl snd.
    match goal with |- context [redeliver n _ ?w1] => set (w1' := w1) end.
    assert (Hc1 : Courses w1' !! pk = Some (increment course)).
    { subst w1'. simpl. rewrite lookup_alter_eq, Hc. reflexivity. }
    assert (Hs1 : serves (4 * n) w1' = true).
    { apply (serves_skipn 4 (4 * n) w); [|reflexivity].
      now replace (4 + 4 * n) with (4 * S n) by lia. }
    destruct (IH w1' (increment course) Hc1 Hs1) as (HP & HE & HC).
    rewrite HP, HE, HC. subst w1'. simpl Payments. simpl Enrollments.
    rewrite <- !app_assoc. split; [reflexivity|]. split; [reflexivity|].
    destruct course as [p c i]. unfold increment, Course.set_enrollmentCount. simpl.
    replace (c + 1 + Z.of_nat n)%Z with (c + Z.of_nat (S n))%Z by lia. reflexivity.
Qed.

Lemma serve_webhooks_purchases (events : list Stripe.Event) (w : World)
    (pk : string) (course : Course.t) :
  Forall (fun event => exists studentId instructorId,
            purchase pk studentId instructorId event) events ->
  Courses w !! pk = Some course ->
  serves (4 * length events) w = true ->
  let w' := serve (map (fun event => POST_webhook (Stripe.Constructed event)) events) w in
  length (Payments w') = length (Payments w) + length events /\
  length (Enrollments w') = length (Enrollments w) + length events /\
  Courses w' !! pk =
    Some (Course.set_enrollmentCount
            (Course.enrollmentCount course + Z.of_nat (length events)) course).
Proof.
  intros Hall. revert w course.
  induction Hall as [|event events (sid & iid & Hp) _ IH]; intros w course Hc Hs; cbv zeta.
  - simpl. rewrite !Nat.add_0_r, Z.add_0_r. split; [reflexivity|]. split; [reflexivity|].
    rewrite Hc. now destruct course.
  - cbn [map serve handle]. unfold exec.
    assert (H4 : serves 4 w = true)
      by (apply (serves_le 4 (4 * length (event :: events))); [simpl; lia|exact Hs]).
    rewrite (webhook_purchase w event pk sid iid course Hp Hc H4). simpl snd.
    match goal with |- context [serve _ ?w1] => set (w1' := w1) end.
    assert (Hc1 : Courses w1' !! pk = Some (increment course)).
    { subst w1'. simpl. rewrite lookup_alter_eq, Hc. reflexivity. }
    assert (Hs1 : serves (4 * length events) w1' = true).
    { apply (serves_skipn 4 (4 * length events) w); [|reflexivity].
      now replace (4 + 4 * length events) with (4 * length (event :: events)) by (simpl; lia). }
    destruct (IH w1' (increment course) Hc1 Hs1) as (HP & HE & HC).
    rewrite HP, HE, HC. subst w1'. simpl Payments. simpl Enrollments.
    rewrite !length_app. simpl length.
    split; [lia|]. split; [lia|].
    destruct course as [p c i]. unfold increment, Course.set_enrollmentCount. simpl.
    replace (c + 1 + Z.of_nat (length events))%Z
      with (c + Z.pos (Pos.of_succ_nat (length events)))%Z by lia.
    reflexivity.
Qed.

(** An invocation that runs alone, one step per awaited query, does what
    the handler does: the step-wise reading of the webhook used for
    concurrent invocations agrees with the handler. *)
Lemma steps_webhook (c : Stripe.Construct) (w : World) :
  steps 4 (start c) w = (ended (eval (webhook c) w), exec (webhook c) w).
Proof.
  destruct c as [[ty [[[[pk|] sid iid]|] pi amt]]|message];
    destruct w as [cs ps es ss qs rs ch].
  4: reflexivity.
  all: unfold steps, start; simpl Stripe.type; simpl Stripe.data_object;
       unfold exec, eval, webhook; simpl Stripe.type; simpl Stripe.data_object;
       destruct (String.eqb ty "checkout.session.completed"); try reflexivity.
  destruct rs as [|[] [|[] [|[] [|[] rs]]]]; run.
  all: destruct (cs !! pk) as [course|]; run; try reflexivity.
  all: destruct sid, iid; run; reflexivity.
Qed.

Lemma purchase_with_amount_total (a : Z) (event : Stripe.Event)
    (pk studentId instructorId : string) :
  purchase pk studentId instructorId event ->
  purchase pk studentId instructorId (with_amount_total a event).
Proof. intros [Hty Hmd]. split; assumption. Qed.

(** *** The rows a lookup without ORDER BY can return *)

Lemma matching_from_lookup (f : Enrollment.t -> bool) (rows : list Enrollment.t)
    (i j : nat) (e : Enrollment.t) :
  In (j, e) (matching_from i f rows) ->
  i <= j /\ rows !! (j - i) = Some e /\ f e = true.
Proof.
  revert i. induction rows as [|x rows IH]; intros i; simpl; [tauto|].
  destruct (f x) eqn:Hx.
  - intros [Heq|Hin].
    + injection Heq as <- <-. rewrite Nat.sub_diag. split; [lia|]. split; [reflexivity|exact Hx].
    + apply IH in Hin as (Hle & Hl & Hf). split; [lia|]. split; [|exact Hf].
      replace (j - i) with (S (j - S i)) by lia. exact Hl.
  - intros Hin. apply IH in Hin as (Hle & Hl & Hf). split; [lia|]. split; [|exact Hf].
    replace (j - i) with (S (j - S i)) by lia. exact Hl.
Qed.

Lemma matching_from_nil (f : Enrollment.t -> bool) (rows : list Enrollment.t) (i : nat) :
  matching_from i f rows = [] <-> List.find f rows = None.
Proof.
  revert i. induction rows as [|x rows IH]; intros i; simpl; [tauto|].
  destruct (f x); [split; discriminate|apply IH].
Qed.

Lemma choose_In {A} (pick : nat) (l : list A) (x : A) :
  choose pick l = Some x -> In x l.
Proof.
  destruct l as [|y l]; [discriminate|]. unfold choose. intros H.
  assert (Hx : x = nth pick (y :: l) y) by congruence. rewrite Hx. clear H Hx.
  destruct (Nat.lt_ge_cases pick (length (y :: l))) as [Hlt|Hge].
  - apply nth_In. exact Hlt.
  - rewrite nth_overflow by exact Hge. now left.
Qed.

(** The row a lookup returns is a row of the table that matches. *)
Lemma choose_matching (pick : nat) (f : Enrollment.t -> bool) (rows : list Enrollment.t)
    (j : nat) (e : Enrollment.t) :
  choose pick (matching_from 0 f rows) = Some (j, e) ->
  rows !! j = Some e /\ f e = true.
Proof.
  intros H. apply choose_In, matching_from_lookup in H as (_ & Hl & Hf).
  rewrite Nat.sub_0_r in Hl. split; assumption.
Qed.

(** A lookup returns a row exactly when some row matches, whatever the
    store chooses. *)
Lemma choose_matching_find (pick : nat) (f : Enrollment.t -> bool) (rows : list Enrollment.t) :
  match List.find f rows with
  | Some _ => exists j e, choose pick (matching_from 0 f rows) = Some (j, e)
  | None => choose pick (matching_from 0 f rows) = None
  end.
Proof.
  destruct (List.find f rows) as [e|] eqn:Hf.
  - destruct (matching_from 0 f rows) as [|[j x] l] eqn:Hm.
    + apply matching_from_nil in Hm. congruence.
    + unfold choose. destruct (nth pick ((j, x) :: l) (j, x)) as [j' e']. now exists j', e'.
  - apply (matching_from_nil f rows 0) in Hf. now rewrite Hf.
Qed.

Lemma find_enrolled (studentId pk : string) (w : World) :
  enrolled studentId pk w ->
  exists e, List.find (Enrollment_matches studentId pk) (Enrollments w) = Some e.
Proof.
  intros (e & Hin & Hs & Hc).
  destruct (List.find _ _) as [e'|] eqn:Hfind; [now exists e'|].
  apply (List.find_none _ _ Hfind) in Hin. unfold Enrollment_matches in Hin.
  rewrite Hs, Hc, !column_is_refl in Hin. discriminate.
Qed.

Lemma findOne_enrolled (studentId pk : string) (w : World) (pick : nat) :
  enrolled studentId pk w ->
  exists j e,
    choose pick (matching_from 0 (Enrollment_matches studentId pk) (Enrollments w)) =
      Some (j, e).
Proof.
  intros He. destruct (find_enrolled studentId pk w He) as [e Hfind].
  pose proof (choose_matching_find pick (Enrollment_matches studentId pk) (Enrollments w)) as H.
  now rewrite Hfind in H.
Qed.

(** ** Redelivery (C1) *)

(** C1, counterexample.  The webhook looks up no transactionId before it
    writes: the same completed-payment event, delivered a second time after
    a first successful processing, adds a second Payment row with that
    transactionId, a second Enrollment row for the pair, and increments
    [enrollmentCount] again. *)
Lemma redelivery_is_not_idempotent :
  let delivery := Stripe.Constructed (a_completion student_1 "pi_1" 4999) in
  let once := redeliver 1 delivery (a_world 4999 []) in
  let twice := redeliver 2 delivery (a_world 4999 []) in
  (length (payments_of "pi_1" once) = 1 /\
   length (enrollments_of student_1 course_1 once) = 1 /\
   enrollmentCount_of course_1 once = Some 1%Z) /\
  (length (payments_of "pi_1" twice) = 2 /\
   length (enrollments_of student_1 course_1 twice) = 2 /\
   enrollmentCount_of course_1 twice = Some 2%Z) /\
  Payments twice <> Payments once /\
  Enrollments twice <> Enrollments once /\
  Courses twice <> Courses once.
Proof.
  cbv zeta. repeat split; try (vm_compute; reflexivity).
  - vm_compute. discriminate.
  - vm_compute. discriminate.
  - intros H. apply (f_equal (fun cs : gmap string Course.t =>
                                Course.enrollmentCount <$> cs !! course_1)) in H.
    vm_compute in H. discriminate.
Qed.

(** C1, as amended.  The webhook keeps no record of the transactionIds it
    has processed: it looks none up before it writes, and the Payment table
    takes any number of rows with one transactionId.  So every delivery of
    a completed-payment event that is processed successfully (the course
    exists, the metadata names course, student and instructor, the store
    serves the queries) writes its Payment row, whether or not its
    transactionId was processed before: [n] deliveries of the same event
    add [n] copies of the same Payment row, all with that transactionId. *)
Theorem redelivery_repeats_effects (n : nat) (w : World) (event : Stripe.Event)
    (pk studentId instructorId transactionId : string) (course : Course.t) :
  purchase pk studentId instructorId event ->
  Stripe.payment_intent (Stripe.data_object event) = Some transactionId ->
  Courses w !! pk = Some course ->
  serves (4 * n) w = true ->
  let md := Stripe.mkMetadata (Some pk) (Some studentId) (Some instructorId) in
  let p := payment_row md (Stripe.data_object event) course in
  let w' := redeliver n (Stripe.Constructed event) w in
  Payments w' = Payments w ++ repeat p n /\
  Payment.transactionId p = Some transactionId /\
  length (payments_of transactionId w') = length (payments_of transactionId w) + n.
Proof.
  intros Hp Htx Hc Hs.
  destruct (redeliver_purchase n w event pk studentId instructorId course Hp Hc Hs)
    as (HP & _ & _).
  cbv zeta. unfold payments_of. rewrite HP.
  split; [reflexivity|]. split; [exact Htx|].
  rewrite List.filter_app, length_app, filter_repeat_true, repeat_length; [reflexivity|].
  unfold payment_row. simpl. rewrite Htx. apply column_is_refl.
Qed.

(** C1, witness: three deliveries of one event to a fresh store. *)
Lemma redelivery_repeats_effects_witness :
  let event := a_completion student_1 "pi_1" 4999 in
  let md := Stripe.mkMetadata (Some course_1) (Some student_1) (Some instructor_1) in
  let p := payment_row md (Stripe.data_object event) (a_course 4999) in
  let w' := redeliver 3 (Stripe.Constructed event) (a_world 4999 []) in
  Payments w' = Payments (a_world 4999 []) ++ repeat p 3 /\
  Payment.transactionId p = Some "pi_1" /\
  length (payments_of "pi_1" w') = length (payments_of "pi_1" (a_world 4999 [])) + 3.
Proof.
  apply (redelivery_repeats_effects 3 (a_world 4999 []) (a_completion student_1 "pi_1" 4999)
           course_1 student_1 instructor_1 "pi_1" (a_course 4999)).
  - split; reflexivity.
  - reflexivity.
  - vm_compute. reflexivity.
  - reflexivity.
Defined.

(** ** Atomicity of the writes (C2) *)

(** C2, counterexample.  The store serves the course lookup and the Payment
    insert and refuses the Enrollment insert: the handler stops there, and
    the Payment row stays, without its Enrollment row. *)
Lemma payment_without_enrollment :
  let md := Stripe.mkMetadata (Some course_1) (Some student_1) (Some instructor_1) in
  let session := Stripe.data_object (a_completion student_1 "pi_1" 4999) in
  let w := a_world 4999 [false; false; true] in
  let w' := exec (webhook (Stripe.Constructed (a_completion student_1 "pi_1" 4999))) w in
  eval (process_completed md session) w = Throw StorageError /\
  Payments w' = [payment_row md session (a_course 4999)] /\
  Enrollments w' = [] /\
  enrollmentCount_of course_1 w' = Some 0%Z /\
  queries w' = [Course_findByPk_query; Payment_create_query; Enrollment_create_query].
Proof. cbv zeta. repeat split; vm_compute; reflexivity. Qed.

(** C2, as amended.  The writes of the handler are made one after another
    (Payment insert, then Enrollment insert, then the counter; there is no
    idempotency mark), and a failure stops the sequence without undoing
    the writes made before it.  For a purchase of an existing course, what
    one delivery leaves is decided by the first query the store refuses:
    the course lookup or the Payment insert, nothing is written; the
    Enrollment insert, the Payment row stays, alone; the save of the
    counter, the Payment row and the Enrollment row stay and the counter is
    unchanged; none of the four, both rows are written and the counter is
    incremented. *)
Theorem webhook_writes_in_sequence (w : World) (event : Stripe.Event)
    (pk studentId instructorId : string) (course : Course.t) :
  purchase pk studentId instructorId event ->
  Courses w !! pk = Some course ->
  let md := Stripe.mkMetadata (Some pk) (Some studentId) (Some instructorId) in
  let p := payment_row md (Stripe.data_object event) course in
  let e := enrollment_row md in
  let w' := exec (webhook (Stripe.Constructed event)) w in
  match first_refused (refusals w) with
  | Some 0 | Some 1 =>
      Payments w' = Payments w /\ Enrollments w' = Enrollments w /\ Courses w' = Courses w
  | Some 2 =>
      Payments w' = Payments w ++ [p] /\ Enrollments w' = Enrollments w /\
      Courses w' = Courses w
  | Some 3 =>
      Payments w' = Payments w ++ [p] /\ Enrollments w' = Enrollments w ++ [e] /\
      Courses w' = Courses w
  | _ =>
      Payments w' = Payments w ++ [p] /\ Enrollments w' = Enrollments w ++ [e] /\
      Courses w' =
        alter (Course.set_enrollmentCount (Course.enrollmentCount course + 1)) pk (Courses w)
  end.
Proof.
  intros [Hty Hmd] Hc. destruct event as [ty [md pi amt]].
  destruct w as [cs ps es ss qs rs ch]. simpl in Hty, Hmd, Hc. subst ty md.
  destruct rs as [|[] [|[] [|[] [|[] rs]]]].
  all: run; try rewrite Hc; run.
  all: simpl first_refused; try solve [repeat split].
  destruct (first_refused rs) as [n|]; simpl; repeat split.
Qed.

(** C2, witness: the store refuses the save of the counter, and the
    Payment row and the Enrollment row stay, with the counter at 0. *)
Lemma webhook_writes_in_sequence_witness :
  let md := Stripe.mkMetadata (Some course_1) (Some student_1) (Some instructor_1) in
  let event := a_completion student_1 "pi_1" 4999 in
  let w := a_world 4999 [false; false; false; true] in
  let w' := exec (webhook (Stripe.Constructed event)) w in
  Payments w' = Payments w ++ [payment_row md (Stripe.data_object event) (a_course 4999)] /\
  Enrollments w' = Enrollments w ++ [enrollment_row md] /\
  Courses w' = Courses w.
Proof.
  apply (webhook_writes_in_sequence (a_world 4999 [false; false; false; true])
           (a_completion student_1 "pi_1" 4999)
           course_1 student_1 instructor_1 (a_course 4999)).
  - split; reflexivity.
  - vm_compute. reflexivity.
Defined.

(** ** The amount of the event (C3) *)

(** C3, counterexample.  The event says 1.00 was charged for a course whose
    price is 49.99: the handler raises no error, acknowledges, and writes
    a Payment row (with the course's price as amount) and an Enrollment
    row. *)
Lemma mismatched_amount_is_processed :
  let event := a_completion student_1 "pi_1" 100 in
  let w := a_world 4999 [] in
  let w' := exec (webhook (Stripe.Constructed event)) w in
  Stripe.amount_total (Stripe.data_object event) = 100%Z /\
  Course.price <$> Courses w !! course_1 = Some 4999%Z /\
  eval (process_completed
          (Stripe.mkMetadata (Some course_1) (Some student_1) (Some instructor_1))
          (Stripe.data_object event)) w = Ok tt /\
  eval (webhook (Stripe.Constructed event)) w = Ok (mkResponse 200 (Json_received true)) /\
  length (Payments w') = 1 /\
  length (Enrollments w') = 1 /\
  map Payment.amount (Payments w') = [4999%Z].
Proof. cbv zeta. repeat split; vm_compute; reflexivity. Qed.

(** C3, as amended.  The webhook does not compare the amount of the event
    with the price of the course: whatever amount [a] the event carries, a
    purchase of an existing course is processed in the same way, and when
    the store serves the queries it is acknowledged and leaves a Payment
    row, whose amount is the course's current price, and an Enrollment
    row. *)
Theorem amount_total_is_ignored (a : Z) (w : World) (event : Stripe.Event)
    (pk studentId instructorId : string) (course : Course.t) :
  purchase pk studentId instructorId event ->
  Courses w !! pk = Some course ->
  serves 4 w = true ->
  let md := Stripe.mkMetadata (Some pk) (Some studentId) (Some instructorId) in
  let delivery := Stripe.Constructed (with_amount_total a event) in
  let w' := exec (webhook delivery) w in
  let p := payment_row md (Stripe.data_object event) course in
  eval (webhook delivery) w = Ok acknowledged /\
  Payments w' = Payments w ++ [p] /\
  Payment.amount p = Course.price course /\
  Enrollments w' = Enrollments w ++ [enrollment_row md].
Proof.
  intros Hp Hc Hs. cbv zeta. unfold exec, eval.
  rewrite (webhook_purchase w _ pk studentId instructorId course
             (purchase_with_amount_total a event pk studentId instructorId Hp) Hc Hs).
  destruct event as [ty [md pi amt]]. repeat split.
Qed.

(** C3, witness: an event of 1.00 for a course at 49.99. *)
Lemma amount_total_is_ignored_witness :
  let md := Stripe.mkMetadata (Some course_1) (Some student_1) (Some instructor_1) in
  let event := a_completion student_1 "pi_1" 4999 in
  let delivery := Stripe.Constructed (with_amount_total 100 event) in
  let w' := exec (webhook delivery) (a_world 4999 []) in
  let p := payment_row md (Stripe.data_object event) (a_course 4999) in
  eval (webhook delivery) (a_world 4999 []) = Ok acknowledged /\
  Payments w' = Payments (a_world 4999 []) ++ [p] /\
  Payment.amount p = 4999%Z /\
  Enrollments w' = Enrollments (a_world 4999 []) ++ [enrollment_row md].
Proof.
  apply (amount_total_is_ignored 100 (a_world 4999 []) (a_completion student_1 "pi_1" 4999)
           course_1 student_1 instructor_1 (a_course 4999)).
  - split; reflexivity.
  - vm_compute. reflexivity.
  - reflexivity.
Defined.

(** ** One Enrollment per student and course (C4) *)

(** C4, the code at a failing input.  [/create-checkout] refuses a student
    who already has an Enrollment for the course, and the webhook, the one
    place that creates Enrollment rows, does not look for one.  A student
    opens two checkouts for a course before paying (both pass the guard),
    and pays both: the two completions leave two Enrollment rows for the
    same pair. *)
Lemma double_checkout_enrolls_twice :
  let w := a_world 4999 [] in
  let rs :=
    [POST_create_checkout student_1 (Some course_1) (Stripe.Created "https://checkout/1");
     POST_create_checkout student_1 (Some course_1) (Stripe.Created "https://checkout/2");
     POST_webhook (Stripe.Constructed (a_completion student_1 "pi_1" 4999));
     POST_webhook (Stripe.Constructed (a_completion student_1 "pi_2" 4999))] in
  length (checkoutSessions (serve rs w)) = 2 /\
  length (enrollments_of student_1 course_1 (serve rs w)) = 2.
Proof. cbv zeta. split; vm_compute; reflexivity. Qed.

(** ** The fee split (C5) *)

(** C5, counterexample.  For a course at 0.10 the handler computes, in
    doubles, a platform fee of 0.015 and an instructor payout of 0.085
    (the doubles nearest to them), neither a whole number of cents; the
    payout is taken from the fee before any rounding.  Each column then
    rounds its own value: the Payment row holds a platformFee of 0.02 and
    an instructorPayout of 0.09, and their sum, 0.11, is not the amount. *)
Lemma fee_split_drifts :
  let w' := exec (webhook (Stripe.Constructed (a_completion student_1 "pi_1" 10)))
                 (a_world 10 []) in
  platformFee (a_course 10) = PrimFloat.mul 0.1%float 0.15%float /\
  reads_back 15 (platformFee (a_course 10)) = true /\
  reads_back 85 (instructorPayout (a_course 10)) = true /\
  exists p,
    Payments w' = [p] /\
    Payment.amount p = 10%Z /\
    Payment.platformFee p = 2%Z /\
    Payment.instructorPayout p = 9%Z /\
    (Payment.platformFee p + Payment.instructorPayout p)%Z <> Payment.amount p.
Proof.
  cbv zeta. split; [vm_compute; reflexivity|]. split; [vm_compute; reflexivity|].
  split; [vm_compute; reflexivity|].
  eexists. split; [vm_compute; reflexivity|].
  repeat split; try (vm_compute; reflexivity). vm_compute. discriminate.
Qed.

(** C5, as amended.  The fee split is computed in double-precision floating
    point and without a rounding step: the handler hands [Payment.create]
    the course's price as amount, price * 0.15 as platformFee and price
    minus that product as instructorPayout, and the Payment row keeps each
    of the two rounded to cents by its own DECIMAL(10,2) column.  For a
    price of 10000 the row holds platformFee = 1500 and instructorPayout =
    8500, whose sum is the amount (and, read in cents, a price of 100.00
    gives 15.00 and 85.00). *)
Theorem fee_split_in_doubles (w : World) (event : Stripe.Event)
    (pk studentId instructorId : string) (course : Course.t) :
  purchase pk studentId instructorId event ->
  Courses w !! pk = Some course ->
  serves 4 w = true ->
  let price := ToNumber (Course.price course) in
  let fee := PrimFloat.mul price 0.15%float in
  let payout := PrimFloat.sub price fee in
  exists p,
    Payments (exec (webhook (Stripe.Constructed event)) w) = Payments w ++ [p] /\
    Payment.amount p = Course.price course /\
    Payment.platformFee p = DECIMAL_2 fee /\
    Payment.instructorPayout p = DECIMAL_2 payout /\
    (Course.price course = 1000000%Z ->
     fee = 1500%float /\ payout = 8500%float /\
     Payment.platformFee p = 150000%Z /\
     Payment.instructorPayout p = 850000%Z /\
     (Payment.platformFee p + Payment.instructorPayout p)%Z = Payment.amount p) /\
    (Course.price course = 10000%Z ->
     fee = 15%float /\ payout = 85%float /\
     Payment.platformFee p = 1500%Z /\
     Payment.instructorPayout p = 8500%Z /\
     (Payment.platformFee p + Payment.instructorPayout p)%Z = Payment.amount p).
Proof.
  intros Hp Hc Hs. cbv zeta.
  exists (payment_row (Stripe.mkMetadata (Some pk) (Some studentId) (Some instructorId))
            (Stripe.data_object event) course).
  unfold exec. rewrite (webhook_purchase w event pk studentId instructorId course Hp Hc Hs).
  split; [reflexivity|]. split; [reflexivity|]. split; [reflexivity|]. split; [reflexivity|].
  split; intros Hprice;
    unfold payment_row, inserted, payment_values, instructorPayout, platformFee; simpl;
    rewrite Hprice; repeat split; vm_compute; reflexivity.
Qed.

(** C5, witness: a course whose price is 10000. *)
Lemma fee_split_in_doubles_witness :
  exists p,
    Payments (exec (webhook (Stripe.Constructed (a_completion student_1 "pi_1" 1000000)))
                   (a_world 1000000 [])) = [p] /\
    Payment.amount p = 1000000%Z /\
    Payment.platformFee p = 150000%Z /\
    Payment.instructorPayout p = 850000%Z /\
    (Payment.platformFee p + Payment.instructorPayout p)%Z = Payment.amount p.
Proof.
  destruct (fee_split_in_doubles (a_world 1000000 [])
              (a_completion student_1 "pi_1" 1000000)
              course_1 student_1 instructor_1 (a_course 1000000))
    as (p & HP & Ha & _ & _ & H10000 & _).
  - split; reflexivity.
  - vm_compute. reflexivity.
  - reflexivity.
  - exists p. destruct (H10000 eq_refl) as (_ & _ & Hf & Hi & Hsum).
    split; [exact HP|]. split; [exact Ha|]. split; [exact Hf|]. split; [exact Hi|exact Hsum].
Defined.

(** ** Storage errors (C6) *)

(** C6, counterexample.  The store is unavailable at the first query of a
    completed-payment event: processing fails with the storage error, the
    [catch] logs it, and the endpoint answers 200 [{ received: true }]. *)
Lemma storage_error_is_acknowledged :
  let md := Stripe.mkMetadata (Some course_1) (Some student_1) (Some instructor_1) in
  let event := a_completion student_1 "pi_1" 4999 in
  let w := a_world 4999 [true] in
  eval (process_completed md (Stripe.data_object event)) w = Throw StorageError /\
  eval (webhook (Stripe.Constructed event)) w = Ok (mkResponse 200 (Json_received true)) /\
  Payments (exec (webhook (Stripe.Constructed event)) w) = [].
Proof. cbv zeta. repeat split; vm_compute; reflexivity. Qed.

(** C6, as amended.  Once the signature has verified, an event of another
    type is acknowledged with 200 [{ received: true }] without processing,
    and so is a completed-payment event whose session carries metadata,
    whatever happens in the [try] block that processes it, a storage error
    included: every error raised there is caught and logged, and none
    reaches the provider. *)
Theorem verified_delivery_is_acknowledged (event : Stripe.Event) (w : World) :
  (Stripe.type event = "checkout.session.completed" ->
   Stripe.metadata (Stripe.data_object event) <> None) ->
  eval (webhook (Stripe.Constructed event)) w = Ok acknowledged /\
  status acknowledged = 200 /\
  body acknowledged = Json_received true.
Proof.
  intros Hmd. split; [|split; reflexivity]. unfold eval, webhook, bind, try_catch, ret.
  destruct (String.eqb _ _) eqn:Hty; [|reflexivity].
  apply String.eqb_eq in Hty. specialize (Hmd Hty).
  destruct (Stripe.metadata (Stripe.data_object event)) as [md|]; [|contradiction].
  destruct (process_completed _ _ w) as [[[]|e] w']; reflexivity.
Qed.

(** C6, witness: the store is unavailable at the first query. *)
Lemma verified_delivery_is_acknowledged_witness :
  eval (webhook (Stripe.Constructed (a_completion student_1 "pi_1" 4999)))
       (a_world 4999 [true]) = Ok acknowledged /\
  status acknowledged = 200 /\
  body acknowledged = Json_received true.
Proof.
  apply (verified_delivery_is_acknowledged (a_completion student_1 "pi_1" 4999)
           (a_world 4999 [true])).
  intros _. vm_compute. discriminate.
Defined.

(** ** The enrollment counter (C7) *)

(** C7, counterexample.  Two completions for two students of one course are
    in flight together, and each is served one query in turn: both read
    the course before either saves it, both succeed (two Payment rows, two
    Enrollment rows, two acknowledgements), and the counter goes from 0 to
    1: the increment is a read followed, three queries later, by a write of
    the value read plus one. *)
Lemma concurrent_completions_lose_an_increment :
  let invocations :=
    [start (Stripe.Constructed (a_completion student_1 "pi_1" 4999));
     start (Stripe.Constructed (a_completion student_2 "pi_2" 4999))] in
  let run := interleave [0; 1; 0; 1; 0; 1; 0; 1] invocations (a_world 4999 []) in
  fst run = [Responded acknowledged; Responded acknowledged] /\
  length (Payments (snd run)) = 2 /\
  length (Enrollments (snd run)) = 2 /\
  enrollmentCount_of course_1 (a_world 4999 []) = Some 0%Z /\
  enrollmentCount_of course_1 (snd run) = Some 1%Z.
Proof. cbv zeta. repeat split; vm_compute; reflexivity. Qed.

(** C7, as amended.  After N completed-payment events for purchases of one
    course, processed successfully one after another (each to its end
    before the next starts), the course's [enrollmentCount] is its initial
    value plus N. *)
Theorem sequential_completions_count (events : list Stripe.Event) (w : World)
    (pk : string) (course : Course.t) :
  Forall (fun event => exists studentId instructorId,
            purchase pk studentId instructorId event) events ->
  Courses w !! pk = Some course ->
  serves (4 * length events) w = true ->
  let w' := serve (map (fun event => POST_webhook (Stripe.Constructed event)) events) w in
  length (Payments w') = length (Payments w) + length events /\
  length (Enrollments w') = length (Enrollments w) + length events /\
  enrollmentCount_of pk w' = Some (Course.enrollmentCount course + Z.of_nat (length events))%Z.
Proof.
  intros Hall Hc Hs. cbv zeta. unfold enrollmentCount_of.
  destruct (serve_webhooks_purchases events w pk course Hall Hc Hs) as (HP & HE & HC).
  split; [exact HP|]. split; [exact HE|]. now rewrite HC.
Qed.

(** C7, witness: two students buy the same course, one after the other. *)
Lemma sequential_completions_count_witness :
  let events := [a_completion student_1 "pi_1" 4999; a_completion student_2 "pi_2" 4999] in
  let w' := serve (map (fun event => POST_webhook (Stripe.Constructed event)) events)
                  (a_world 4999 []) in
  length (Payments w') = length (Payments (a_world 4999 [])) + length events /\
  length (Enrollments w') = length (Enrollments (a_world 4999 [])) + length events /\
  enrollmentCount_of course_1 w' = Some (0 + Z.of_nat (length events))%Z.
Proof.
  apply (sequential_completions_count
           [a_completion student_1 "pi_1" 4999; a_completion student_2 "pi_2" 4999]
           (a_world 4999 []) course_1 (a_course 4999)).
  - repeat constructor.
    + exists student_1, instructor_1. split; reflexivity.
    + exists student_2, instructor_1. split; reflexivity.
  - vm_compute. reflexivity.
  - reflexivity.
Defined.

(** ** Signature verification (C8, C9) *)

(** C8.  When the signature does not verify (or the timestamp is outside
    the tolerance), the handler answers 400 and has no effect: no query is
    sent to a repository, and the world, durable state included, is
    unchanged. *)
Theorem unverified_delivery_has_no_effect (message : string) (w : World) :
  let delivery := Stripe.SignatureVerificationError message in
  (exists r, eval (webhook delivery) w = Ok r /\ status r = 400 /\ 400 <= status r < 500) /\
  exec (webhook delivery) w = w /\
  queries (exec (webhook delivery) w) = queries w /\
  Courses (exec (webhook delivery) w) = Courses w /\
  Payments (exec (webhook delivery) w) = Payments w /\
  Enrollments (exec (webhook delivery) w) = Enrollments w.
Proof.
  cbv zeta. split; [|repeat split].
  eexists. split; [reflexivity|]. simpl. lia.
Qed.

(** C9, counterexample.  The response carries the message of the
    verification error: a delivery rejected for its signature and one
    rejected for its timestamp receive different bodies. *)
Lemma rejections_tell_the_reason :
  let bad_signature := "No signatures found matching the expected signature for payload" in
  let stale := "Timestamp outside the tolerance zone" in
  eval (webhook (Stripe.SignatureVerificationError bad_signature)) (a_world 4999 []) <>
  eval (webhook (Stripe.SignatureVerificationError stale)) (a_world 4999 []).
Proof. cbv zeta. vm_compute. discriminate. Qed.

(** C9, as amended.  When verification fails the response is status 400
    with the text "Webhook Error: " followed by the message of the
    verification error: two rejected deliveries receive the same response
    exactly when the verifier reported the same message for both. *)
Theorem rejection_echoes_the_message (m1 m2 : string) (w1 w2 : World) :
  let r1 := eval (webhook (Stripe.SignatureVerificationError m1)) w1 in
  let r2 := eval (webhook (Stripe.SignatureVerificationError m2)) w2 in
  r1 = Ok (mkResponse 400 (Text ("Webhook Error: " ++ m1))) /\
  r2 = Ok (mkResponse 400 (Text ("Webhook Error: " ++ m2))) /\
  (r1 = r2 <-> m1 = m2).
Proof.
  cbv zeta. split; [reflexivity|]. split; [reflexivity|].
  unfold eval, webhook, ret. simpl. split.
  - intros H. now inversion H.
  - now intros ->.
Qed.

(** ** Checkout of an enrolled student (C10) *)

(** C10.  When an Enrollment exists for the student and the course, a
    create-checkout request creates no checkout session at the provider and
    changes no table; it answers 400 "Already enrolled" (the course being
    found and the two reads served, which is how lines 14-17 are
    reached). *)
Theorem already_enrolled_no_checkout (w : World) (userId pk : string) (create : Stripe.Create) :
  enrolled userId pk w ->
  let w' := exec (create_checkout userId (Some pk) create) w in
  (checkoutSessions w' = checkoutSessions w /\ Courses w' = Courses w /\
   Payments w' = Payments w /\ Enrollments w' = Enrollments w) /\
  (is_Some (Courses w !! pk) -> serves 2 w = true ->
   eval (create_checkout userId (Some pk) create) w =
     Ok (mkResponse 400 (Json_message "Already enrolled"))).
Proof.
  intros He. destruct w as [cs ps es ss qs rs ch].
  destruct (findOne_enrolled userId pk _ (hd 0 ch) He) as (j & e & Hfind).
  cbn [Enrollments] in Hfind. cbv zeta. split.
  - destruct rs as [|[] [|[] rs]]; run; try solve [repeat split].
    all: destruct (cs !! pk) as [course|]; run; try solve [repeat split].
    all: rewrite Hfind; repeat split.
  - intros [course Hc] Hs. simpl in Hc.
    destruct rs as [|[] [|[] rs]]; try discriminate Hs; run; rewrite Hc; run;
      rewrite Hfind; reflexivity.
Qed.

(** C10, witness: the student of a processed purchase asks for a checkout
    of the same course. *)
Lemma already_enrolled_no_checkout_witness :
  let w := serve [POST_webhook (Stripe.Constructed (a_completion student_1 "pi_1" 4999))]
                 (a_world 4999 []) in
  let request := create_checkout student_1 (Some course_1)
                   (Stripe.Created "https://checkout/1") in
  enrolled student_1 course_1 w /\
  checkoutSessions (exec request w) = [] /\
  eval request w = Ok (mkResponse 400 (Json_message "Already enrolled")).
Proof.
  cbv zeta.
  assert (He : enrolled student_1 course_1
                 (serve [POST_webhook (Stripe.Constructed (a_completion student_1 "pi_1" 4999))]
                        (a_world 4999 []))).
  { exists (enrollment_row
              (Stripe.mkMetadata (Some course_1) (Some student_1) (Some instructor_1))).
    split; [|split; reflexivity]. vm_compute. left. reflexivity. }
  split; [exact He|].
  destruct (already_enrolled_no_checkout _ student_1 course_1
              (Stripe.Created "https://checkout/1") He) as [(Hss & _) H400].
  split.
  - rewrite Hss. vm_compute. reflexivity.
  - apply H400; [|reflexivity]. vm_compute. eexists. reflexivity.
Defined.

(** * Further properties of the handlers *)

(** Unfolds a handler of either router over a world given by its fields. *)
Ltac run_api :=
  cbv beta iota zeta delta
    [webhook create_checkout process_completed try_catch bind ret throw get modify query
     Course_findByPk Course_save Enrollment_findOne Enrollment_create Payment_create
     stripe_checkout_sessions_create payment_row enrollment_row increment
     set_Courses set_Payments set_Enrollments set_checkoutSessions
     Courses Payments Enrollments checkoutSessions queries refusals
     Stripe.metadata Stripe.payment_intent Stripe.amount_total Stripe.type Stripe.data_object
     Stripe.courseId Stripe.studentId Stripe.instructorId
     Payment.studentId Payment.courseId Payment.instructorId
     Enrollment.studentId Enrollment.courseId
     payment_values store_choice choices next_found
     PaymentValues.studentId PaymentValues.courseId PaymentValues.instructorId
     tail exec eval fst snd acknowledged res_json
     serves firstn forallb negb andb
     course_query Enrollment_count Course_destroy Enrollment_save
     delete_course update_progress handle api completion_of].

(** What one delivery to the webhook can do to the tables. *)
Lemma webhook_tables (c : Stripe.Construct) (w : World) :
  let w' := exec (webhook c) w in
  checkoutSessions w' = checkoutSessions w /\
  ((Payments w' = Payments w /\ Enrollments w' = Enrollments w /\ Courses w' = Courses w) \/
   (exists event pk studentId instructorId course,
      c = Stripe.Constructed event /\
      purchase pk studentId instructorId event /\
      Courses w !! pk = Some course /\
      let md := Stripe.mkMetadata (Some pk) (Some studentId) (Some instructorId) in
      Payments w' = Payments w ++ [payment_row md (Stripe.data_object event) course] /\
      ((Enrollments w' = Enrollments w /\ Courses w' = Courses w) \/
       (Enrollments w' = Enrollments w ++ [enrollment_row md] /\
        (Courses w' = Courses w \/
         Courses w' =
           alter (Course.set_enrollmentCount (Course.enrollmentCount course + 1)) pk
                 (Courses w)))))).
Proof.
  destruct c as [[ty [[[[pk|] sid iid]|] pi amt]]|message];
    destruct w as [cs ps es ss qs rs ch].
  4: { split; [reflexivity|]. left. repeat split. }
  all: unfold exec, webhook; simpl Stripe.type; simpl Stripe.data_object;
       destruct (String.eqb ty "checkout.session.completed") eqn:Hty;
       try solve [split; [reflexivity|]; left; repeat split].
  apply String.eqb_eq in Hty. subst ty.
  destruct rs as [|[] [|[] [|[] [|[] rs]]]]; run.
  all: destruct (cs !! pk) as [course|] eqn:Hc; run;
       try solve [split; [reflexivity|]; left; repeat split].
  all: destruct sid as [sid|], iid as [iid|]; run;
       try solve [split; [reflexivity|]; left; repeat split].
  all: split; [reflexivity|]; right;
       exists (Stripe.mkEvent "checkout.session.completed" (Stripe.mkSession
         (Some (Stripe.mkMetadata (Some pk) (Some sid) (Some iid))) pi amt)),
         pk, sid, iid, course.
  all: split; [reflexivity|]; split; [split; reflexivity|]; split; [exact Hc|];
       split; [reflexivity|].
  all: first [ solve [left; split; reflexivity]
             | solve [right; split; [reflexivity|left; reflexivity]]
             | solve [right; split; [reflexivity|right; reflexivity]] ].
Qed.

(** What one request to [/create-checkout] can do. *)
Lemma create_checkout_tables (userId : string) (courseId : option string)
    (create : Stripe.Create) (w : World) :
  let w' := exec (create_checkout userId courseId create) w in
  Courses w' = Courses w /\ Payments w' = Payments w /\ Enrollments w' = Enrollments w.
Proof.
  destruct w as [cs ps es ss qs rs ch]. destruct courseId as [pk|]; [|repeat split].
  cbv zeta. destruct rs as [|[] [|[] rs]]; run; try solve [repeat split].
  all: destruct (cs !! pk) as [course|]; run; try solve [repeat split].
  all: destruct (choose _ _); run; try solve [repeat split].
  all: destruct create; run; repeat split.
Qed.

(** What one request to delete a course can do. *)
Lemma delete_course_tables (userId pk : string) (w : World) :
  let w' := exec (delete_course userId pk) w in
  Payments w' = Payments w /\ Enrollments w' = Enrollments w /\
  checkoutSessions w' = checkoutSessions w /\
  (Courses w' = Courses w \/
   (exists course,
      Courses w !! pk = Some course /\
      Course.instructorId course = userId /\
      List.filter (of_course pk) (Enrollments w) = [] /\
      Courses w' = delete pk (Courses w) /\
      eval (delete_course userId pk) w = Ok (res_json (Json_message "Course deleted")))).
Proof.
  destruct w as [cs ps es ss qs rs ch]. cbv zeta.
  destruct rs as [|[] [|[] [|[] rs]]]; run_api.
  all: try solve [repeat split; left; reflexivity].
  all: destruct (cs !! pk) as [course|] eqn:Hc; run_api;
       try solve [repeat split; left; reflexivity].
  all: destruct (String.eqb (Course.instructorId course) userId) eqn:Ho; run_api;
       try solve [repeat split; left; reflexivity].
  all: try apply String.eqb_eq in Ho.
  all: destruct (List.filter (of_course pk) es) as [|e0 es0] eqn:Hn; simpl length; run_api;
       try solve [repeat split; left; reflexivity].
  all: try solve [split; [reflexivity|]; split; [reflexivity|]; split; [reflexivity|];
                  right; exists course; repeat split; assumption].
Qed.

(** A row of a list, what precedes and follows it, and the list with that
    row replaced. *)
Lemma insert_middle {A} (l : list A) (i : nat) (e e' : A) :
  l !! i = Some e ->
  exists before after,
    l = before ++ e :: after /\ <[i := e']> l = before ++ e' :: after.
Proof.
  intros Hl. exists (take i l), (drop (S i) l). split.
  - symmetry. now apply take_drop_middle.
  - apply insert_take_drop. now apply lookup_lt_Some in Hl.
Qed.

Lemma column_is_eq (value : string) (column : option string) :
  column_is value column = true <-> column = Some value.
Proof.
  destruct column as [x|]; simpl.
  - rewrite String.eqb_eq. split; [now intros ->|now intros [= ->]].
  - split; discriminate.
Qed.

Lemma Enrollment_matches_eq (studentId pk : string) (e : Enrollment.t) :
  Enrollment_matches studentId pk e = true <->
  Enrollment.studentId e = Some studentId /\ Enrollment.courseId e = Some pk.
Proof.
  unfold Enrollment_matches. rewrite andb_true_iff, !column_is_eq. reflexivity.
Qed.

Lemma find_not_enrolled (studentId pk : string) (w : World) :
  ~ enrolled studentId pk w ->
  List.find (Enrollment_matches studentId pk) (Enrollments w) = None.
Proof.
  intros Hn. destruct (List.find _ _) as [e|] eqn:Hfind; [|reflexivity].
  exfalso. apply Hn. apply List.find_some in Hfind as [Hin Hm].
  apply Enrollment_matches_eq in Hm. exists e. tauto.
Qed.

Lemma findOne_not_enrolled (studentId pk : string) (w : World) (pick : nat) :
  ~ enrolled studentId pk w ->
  choose pick (matching_from 0 (Enrollment_matches studentId pk) (Enrollments w)) = None.
Proof.
  intros Hn. apply find_not_enrolled in Hn.
  pose proof (choose_matching_find pick (Enrollment_matches studentId pk) (Enrollments w)) as H.
  now rewrite Hn in H.
Qed.

Lemma record_progress_matches (studentId pk : string) (progress : float)
    (accessed completed : Z) (e : Enrollment.t) :
  Enrollment_matches studentId pk (record_progress progress accessed completed e) =
  Enrollment_matches studentId pk e.
Proof. reflexivity. Qed.

(** What one progress update can do to the tables. *)
Lemma update_progress_tables (userId pk : string) (progress : float)
    (accessed completed : Z) (w : World) :
  let w' := exec (update_progress userId pk progress accessed completed) w in
  Courses w' = Courses w /\ Payments w' = Payments w /\
  checkoutSessions w' = checkoutSessions w /\
  (Enrollments w' = Enrollments w \/
   (exists id e,
      Enrollments w !! id = Some e /\
      Enrollment_matches userId pk e = true /\
      fits_DECIMAL 5 progress = true /\
      Enrollments w' =
        <[id := record_progress progress accessed completed e]> (Enrollments w) /\
      eval (update_progress userId pk progress accessed completed) w =
        Ok (Progress_updated id))).
Proof.
  destruct w as [cs ps es ss qs rs ch]. cbv zeta.
  destruct rs as [|[] [|[] rs]]; run_api.
  all: try solve [repeat split; left; reflexivity].
  all: destruct (choose (hd 0 ch) (matching_from 0 (Enrollment_matches userId pk) es))
         as [[id e]|] eqn:Hf; run_api;
       try solve [repeat split; left; reflexivity].
  all: apply choose_matching in Hf as [Hl Hm].
  all: destruct (fits_DECIMAL 5 progress) eqn:Hfit; run_api;
       try solve [repeat split; left; reflexivity].
  all: rewrite Hl.
  all: split; [reflexivity|]; split; [reflexivity|]; split; [reflexivity|];
       right; exists id, e; repeat split; assumption.
Qed.

(** ** The webhook: when it writes, and what it leaves alone *)

(** X1.  The webhook writes to the store only for a verified
    [checkout.session.completed] event whose metadata names a course that
    exists, a student and an instructor, and only if the store serves the
    course lookup and the Payment insert.  Any other delivery (failed
    verification, another event type, unknown course, incomplete metadata,
    store unavailable) leaves the three tables as they were. *)
Theorem webhook_writes_only_for_purchases (c : Stripe.Construct) (w : World) :
  let w' := exec (webhook c) w in
  Payments w' <> Payments w \/ Enrollments w' <> Enrollments w \/ Courses w' <> Courses w ->
  exists event pk studentId instructorId,
    c = Stripe.Constructed event /\
    purchase pk studentId instructorId event /\
    is_Some (Courses w !! pk) /\
    serves 2 w = true.
Proof.
  cbv zeta. intros Hdiff.
  assert (Hsame : forall w0 : World,
            exec (webhook c) w = w0 ->
            Payments w0 = Payments w -> Enrollments w0 = Enrollments w ->
            Courses w0 = Courses w -> False).
  { intros w0 <- HP HE HC. destruct Hdiff as [H|[H|H]]; contradiction. }
  destruct c as [[ty [[[[pk|] sid iid]|] pi amt]]|message];
    destruct w as [cs ps es ss qs rs ch].
  4: { exfalso. eapply Hsame; reflexivity. }
  all: revert Hsame; clear Hdiff; unfold exec, webhook;
       simpl Stripe.type; simpl Stripe.data_object;
       destruct (String.eqb ty "checkout.session.completed") eqn:Hty; intros Hsame;
       try solve [exfalso; eapply Hsame; reflexivity].
  apply String.eqb_eq in Hty. subst ty. revert Hsame.
  destruct rs as [|[] [|[] [|[] [|[] rs]]]]; run; intros Hsame.
  all: try solve [exfalso; eapply Hsame; reflexivity].
  all: revert Hsame; destruct (cs !! pk) as [course|] eqn:Hc; run; intros Hsame;
       try solve [exfalso; eapply Hsame; reflexivity].
  all: revert Hsame; destruct sid as [sid|], iid as [iid|]; run; intros Hsame;
       try solve [exfalso; eapply Hsame; reflexivity].
  all: eexists _, pk, sid, iid; split; [reflexivity|]; split; [split; reflexivity|];
       split; [now exists course|reflexivity].
Qed.

(** X1, witness: a purchase of the course of the scenario. *)
Lemma webhook_writes_only_for_purchases_witness :
  exists event pk studentId instructorId,
    Stripe.Constructed (a_completion student_1 "pi_1" 4999) = Stripe.Constructed event /\
    purchase pk studentId instructorId event /\
    is_Some (Courses (a_world 4999 []) !! pk) /\
    serves 2 (a_world 4999 []) = true.
Proof.
  apply (webhook_writes_only_for_purchases
           (Stripe.Constructed (a_completion student_1 "pi_1" 4999)) (a_world 4999 [])).
  left. vm_compute. discriminate.
Defined.

(** X2.  Whatever is delivered, the webhook leaves every course row as it
    was, except that the course named by a completed event may have its
    [enrollmentCount] incremented by one: no course is created or deleted,
    and no price or instructor changes. *)
Theorem webhook_keeps_course_columns (c : Stripe.Construct) (w : World) (k : string) :
  let w' := exec (webhook c) w in
  Courses w' !! k = Courses w !! k \/
  (exists event course,
     c = Stripe.Constructed event /\
     Stripe.courseId <$> Stripe.metadata (Stripe.data_object event) = Some (Some k) /\
     Courses w !! k = Some course /\
     Courses w' !! k =
       Some (Course.mk (Course.price course) (Course.enrollmentCount course + 1)
                       (Course.instructorId course))).
Proof.
  cbv zeta. destruct (webhook_tables c w) as [_ [(_ & _ & HC)|H]].
  - left. now rewrite HC.
  - destruct H as (event & pk & sid & iid & course & -> & [Hty Hmd] & Hc & H).
    cbv zeta in H. destruct H as [_ H].
    destruct H as [[_ HC]|[_ [HC|HC]]]; try (left; now rewrite HC).
    rewrite HC. destruct (decide (pk = k)) as [->|Hne].
    + right. exists event, course. split; [reflexivity|]. split; [now rewrite Hmd|].
      split; [exact Hc|]. rewrite lookup_alter_eq, Hc. reflexivity.
    + left. now apply lookup_alter_ne.
Qed.

(** X17.  A verified completed-payment event whose session carries no
    metadata is not processed and not answered: reading the three ids out
    of the metadata throws before the [try] block is entered, so the
    exception leaves the handler with no query sent and nothing written. *)
Theorem completion_without_metadata_throws (event : Stripe.Event) (w : World) :
  Stripe.type event = "checkout.session.completed" ->
  Stripe.metadata (Stripe.data_object event) = None ->
  webhook (Stripe.Constructed event) w = (Throw TypeError, w) /\
  steps 4 (start (Stripe.Constructed event)) w = (Thrown TypeError, w).
Proof.
  intros Hty Hmd. rewrite steps_webhook. unfold eval, exec, webhook.
  rewrite Hty, Hmd. split; reflexivity.
Qed.

(** X17, witness. *)
Lemma completion_without_metadata_throws_witness :
  webhook (Stripe.Constructed a_bare_completion) (a_world 4999 []) =
    (Throw TypeError, a_world 4999 []) /\
  steps 4 (start (Stripe.Constructed a_bare_completion)) (a_world 4999 []) =
    (Thrown TypeError, a_world 4999 []).
Proof.
  apply (completion_without_metadata_throws a_bare_completion (a_world 4999 []));
    reflexivity.
Defined.

(** ** Checkout *)

(** The answer of a checkout once the two reads are served, by cases on
    what they find. *)
Lemma create_checkout_served (userId pk : string) (create : Stripe.Create) (w : World)
    (course : Course.t) :
  Courses w !! pk = Some course ->
  serves 2 w = true ->
  let w' := after_choice (after_queries [Course_findByPk_query; Enrollment_findOne_query] w) in
  create_checkout userId (Some pk) create w =
    match next_found userId pk w, create with
    | Some _, _ =>
        (Ok (mkResponse 400 (Json_message "Already enrolled")), w')
    | None, Stripe.Created url =>
        (Ok (res_json (Json_sessionUrl url)),
         set_checkoutSessions
           (fun ss => ss ++ [Stripe.mkMetadata (Some pk) (Some userId)
                                               (Some (Course.instructorId course))]) w')
    | None, Stripe.CreateError =>
        (Ok (mkResponse 500 (Json_message "Checkout failed")), w')
    end.
Proof.
  intros Hc Hs. destruct w as [cs ps es ss qs rs ch]. simpl in Hc.
  destruct rs as [|[] [|[] rs]]; try discriminate Hs; clear Hs.
  all: run; rewrite Hc; run; destruct (choose _ _); run.
  all: try (destruct create; run).
  all: unfold after_queries, after_choice; simpl; rewrite <- ?app_assoc; reflexivity.
Qed.

(** X3.  A student who is not enrolled in an existing course gets a
    checkout session: the answer is 200 with the URL the provider returned,
    exactly one session is created, its metadata names the course, the
    requesting student and the course's own instructor, and no table
    changes. *)
Theorem create_checkout_creates_session (userId pk url : string) (w : World)
    (course : Course.t) :
  Courses w !! pk = Some course ->
  ~ enrolled userId pk w ->
  serves 2 w = true ->
  let request := create_checkout userId (Some pk) (Stripe.Created url) in
  eval request w = Ok (mkResponse 200 (Json_sessionUrl url)) /\
  checkoutSessions (exec request w) =
    checkoutSessions w ++
      [Stripe.mkMetadata (Some pk) (Some userId) (Some (Course.instructorId course))] /\
  Courses (exec request w) = Courses w /\
  Payments (exec request w) = Payments w /\
  Enrollments (exec request w) = Enrollments w.
Proof.
  intros Hc Hn Hs. cbv zeta. unfold eval, exec.
  rewrite (create_checkout_served userId pk _ w course Hc Hs). unfold next_found.
  rewrite (findOne_not_enrolled _ _ _ _ Hn). repeat split.
Qed.

(** X3, witness: student 2 asks for a checkout of the course of the
    scenario. *)
Lemma create_checkout_creates_session_witness :
  let request := create_checkout student_2 (Some course_1)
                   (Stripe.Created "https://checkout/1") in
  eval request (a_world 4999 []) =
    Ok (mkResponse 200 (Json_sessionUrl "https://checkout/1")) /\
  checkoutSessions (exec request (a_world 4999 [])) =
    checkoutSessions (a_world 4999 []) ++
      [Stripe.mkMetadata (Some course_1) (Some student_2)
                         (Some (Course.instructorId (a_course 4999)))] /\
  Courses (exec request (a_world 4999 [])) = Courses (a_world 4999 []) /\
  Payments (exec request (a_world 4999 [])) = Payments (a_world 4999 []) /\
  Enrollments (exec request (a_world 4999 [])) = Enrollments (a_world 4999 []).
Proof.
  apply (create_checkout_creates_session student_2 course_1 "https://checkout/1"
           (a_world 4999 []) (a_course 4999)).
  - vm_compute. reflexivity.
  - intros (e & Hin & _). exact Hin.
  - reflexivity.
Defined.

(** X4.  A checkout request creates a session at the provider exactly when
    it answers 200 with the session's URL; every other answer is one of 400,
    404 or 500 with a message and creates none.  In both cases no table
    changes. *)
Theorem checkout_session_iff_success (userId : string) (courseId : option string)
    (create : Stripe.Create) (w : World) :
  let request := create_checkout userId courseId create in
  (Courses (exec request w) = Courses w /\ Payments (exec request w) = Payments w /\
   Enrollments (exec request w) = Enrollments w) /\
  ((exists url md,
      create = Stripe.Created url /\
      eval request w = Ok (mkResponse 200 (Json_sessionUrl url)) /\
      Stripe.studentId md = Some userId /\ Stripe.courseId md = courseId /\
      checkoutSessions (exec request w) = checkoutSessions w ++ [md]) \/
   (exists code message,
      eval request w = Ok (mkResponse code (Json_message message)) /\
      (code = 400 \/ code = 404 \/ code = 500) /\
      checkoutSessions (exec request w) = checkoutSessions w)).
Proof.
  cbv zeta. split; [apply create_checkout_tables|].
  destruct w as [cs ps es ss qs rs ch]. destruct courseId as [pk|].
  2: { right. exists 404, "Course not found". repeat split. tauto. }
  destruct rs as [|[] [|[] rs]]; run.
  all: try solve [right; exists 500, "Checkout failed"; repeat split; tauto].
  all: destruct (cs !! pk) as [course|]; run.
  all: try solve [right; exists 404, "Course not found"; repeat split; tauto].
  all: try solve [right; exists 500, "Checkout failed"; repeat split; tauto].
  all: destruct (choose _ _); run.
  all: try solve [right; exists 400, "Already enrolled"; repeat split; tauto].
  all: destruct create as [url|]; run.
  all: try solve [right; exists 500, "Checkout failed"; repeat split; tauto].
  all: left; exists url, (Stripe.mkMetadata (Some pk) (Some userId)
                            (Some (Course.instructorId course))); repeat split.
Qed.

(** X5.  A checkout for a course that does not exist (or a request that
    names no course) is answered 404 "Course not found" before the
    enrollments are consulted: no session is created and the only query
    sent, if any, is the course lookup. *)
Theorem create_checkout_unknown_course (userId : string) (courseId : option string)
    (create : Stripe.Create) (w : World) :
  (match courseId with
   | Some pk => Courses w !! pk = None /\ serves 1 w = true
   | None => True
   end) ->
  let request := create_checkout userId courseId create in
  eval request w = Ok (mkResponse 404 (Json_message "Course not found")) /\
  checkoutSessions (exec request w) = checkoutSessions w /\
  queries (exec request w) =
    queries w ++ match courseId with Some _ => [Course_findByPk_query] | None => [] end.
Proof.
  destruct w as [cs ps es ss qs rs ch]. destruct courseId as [pk|]; cbv zeta.
  - intros [Hc Hs]. simpl in Hc.
    destruct rs as [|[] rs]; try discriminate Hs; run; rewrite Hc; repeat split.
  - intros _. run. rewrite app_nil_r. repeat split.
Qed.

(** X5, witness: a checkout for a key that names no course. *)
Lemma create_checkout_unknown_course_witness :
  let request := create_checkout student_1 (Some student_2)
                   (Stripe.Created "https://checkout/1") in
  eval request (a_world 4999 []) = Ok (mkResponse 404 (Json_message "Course not found")) /\
  checkoutSessions (exec request (a_world 4999 [])) = checkoutSessions (a_world 4999 []) /\
  queries (exec request (a_world 4999 [])) =
    queries (a_world 4999 []) ++ [Course_findByPk_query].
Proof.
  apply (create_checkout_unknown_course student_1 (Some student_2)
           (Stripe.Created "https://checkout/1") (a_world 4999 [])).
  split; [vm_compute; reflexivity|reflexivity].
Defined.

(** X6.  Once a purchase has been processed, a checkout of the same course
    by the same student is refused with 400 "Already enrolled" and creates
    no session: the Enrollment the webhook wrote is the one the checkout
    guard finds. *)
Theorem purchase_then_checkout_refused (w : World) (event : Stripe.Event)
    (pk studentId instructorId : string) (course : Course.t) (create : Stripe.Create) :
  purchase pk studentId instructorId event ->
  Courses w !! pk = Some course ->
  serves 6 w = true ->
  let w1 := exec (webhook (Stripe.Constructed event)) w in
  let request := create_checkout studentId (Some pk) create in
  eval request w1 = Ok (mkResponse 400 (Json_message "Already enrolled")) /\
  checkoutSessions (exec request w1) = checkoutSessions w.
Proof.
  intros Hp Hc Hs. cbv zeta.
  assert (H4 : serves 4 w = true) by (apply (serves_le 4 6); [lia|exact Hs]).
  unfold exec, eval.
  rewrite (webhook_purchase w event pk studentId instructorId course Hp Hc H4). cbn [snd].
  match goal with |- context [create_checkout _ _ _ ?w1] => set (w1' := w1) end.
  assert (Hc1 : Courses w1' !! pk = Some (increment course)).
  { subst w1'. simpl. rewrite lookup_alter_eq, Hc. reflexivity. }
  assert (Hs1 : serves 2 w1' = true) by (apply (serves_skipn 4 2 w); [exact Hs|reflexivity]).
  rewrite (create_checkout_served studentId pk create w1' (increment course) Hc1 Hs1).
  assert (He : enrolled studentId pk w1').
  { exists (enrollment_row
              (Stripe.mkMetadata (Some pk) (Some studentId) (Some instructorId))).
    subst w1'. cbn [Enrollments].
    split; [apply in_or_app; right; left; reflexivity|split; reflexivity]. }
  destruct (findOne_enrolled studentId pk w1' (hd 0 (choices w1')) He) as (j & e & Hf).
  unfold next_found. rewrite Hf. split; reflexivity.
Qed.

(** X6, witness. *)
Lemma purchase_then_checkout_refused_witness :
  let w1 := exec (webhook (Stripe.Constructed (a_completion student_1 "pi_1" 4999)))
                 (a_world 4999 []) in
  let request := create_checkout student_1 (Some course_1)
                   (Stripe.Created "https://checkout/2") in
  eval request w1 = Ok (mkResponse 400 (Json_message "Already enrolled")) /\
  checkoutSessions (exec request w1) = checkoutSessions (a_world 4999 []).
Proof.
  apply (purchase_then_checkout_refused (a_world 4999 [])
           (a_completion student_1 "pi_1" 4999) course_1 student_1 instructor_1
           (a_course 4999) (Stripe.Created "https://checkout/2")).
  - split; reflexivity.
  - vm_compute. reflexivity.
  - reflexivity.
Defined.

(** X7.  The metadata a checkout hands to the provider comes back in the
    completed event and is what the webhook writes: after a checkout by a
    student and the completion of its session, there is one more Payment
    row, for that student and course, paying the course's own instructor
    the course's price, the student is enrolled, and the counter of the
    course has grown by one. *)
Theorem checkout_then_completion (userId pk url : string) (w : World) (course : Course.t)
    (payment_intent : option string) (amount_total : Z) :
  Courses w !! pk = Some course ->
  ~ enrolled userId pk w ->
  serves 6 w = true ->
  let w1 := exec (create_checkout userId (Some pk) (Stripe.Created url)) w in
  exists md,
    checkoutSessions w1 = checkoutSessions w ++ [md] /\
    let w2 := exec (webhook (Stripe.Constructed
                               (completion_of md payment_intent amount_total))) w1 in
    exists p,
      Payments w2 = Payments w ++ [p] /\
      Payment.studentId p = Some userId /\
      Payment.courseId p = Some pk /\
      Payment.instructorId p = Some (Course.instructorId course) /\
      Payment.amount p = Course.price course /\
      Payment.transactionId p = payment_intent /\
      enrolled userId pk w2 /\
      enrollmentCount_of pk w2 = Some (Course.enrollmentCount course + 1)%Z.
Proof.
  intros Hc Hn Hs. cbv zeta.
  assert (H2 : serves 2 w = true) by (apply (serves_le 2 6); [lia|exact Hs]).
  unfold exec.
  rewrite (create_checkout_served userId pk _ w course Hc H2). unfold next_found.
  rewrite (findOne_not_enrolled _ _ _ _ Hn). cbn [snd].
  set (md := Stripe.mkMetadata (Some pk) (Some userId) (Some (Course.instructorId course))).
  exists md. split; [reflexivity|]. cbv zeta.
  match goal with |- context [webhook _ ?w1] => set (w1' := w1) end.
  set (event := completion_of md payment_intent amount_total).
  assert (Hp : purchase pk userId (Course.instructorId course) event) by (split; reflexivity).
  assert (Hc1 : Courses w1' !! pk = Some course) by exact Hc.
  assert (Hs1 : serves 4 w1' = true) by (apply (serves_skipn 2 4 w); [exact Hs|reflexivity]).
  rewrite (webhook_purchase w1' event pk userId (Course.instructorId course) course Hp Hc1 Hs1).
  cbn [snd]. exists (payment_row md (Stripe.data_object event) course).
  split; [reflexivity|]. split; [reflexivity|]. split; [reflexivity|].
  split; [reflexivity|]. split; [reflexivity|]. split; [reflexivity|]. split.
  - exists (enrollment_row md). simpl Enrollments.
    split; [apply in_or_app; right; left; reflexivity|split; reflexivity].
  - unfold enrollmentCount_of. simpl Courses. rewrite lookup_alter_eq.
    subst w1'. simpl Courses. rewrite Hc. reflexivity.
Qed.

(** X7, witness: student 2 buys the course of the scenario. *)
Lemma checkout_then_completion_witness :
  let w1 := exec (create_checkout student_2 (Some course_1)
                    (Stripe.Created "https://checkout/1")) (a_world 4999 []) in
  exists md,
    checkoutSessions w1 = checkoutSessions (a_world 4999 []) ++ [md] /\
    let w2 := exec (webhook (Stripe.Constructed
                               (completion_of md (Some "pi_1") 4999))) w1 in
    exists p,
      Payments w2 = Payments (a_world 4999 []) ++ [p] /\
      Payment.studentId p = Some student_2 /\
      Payment.courseId p = Some course_1 /\
      Payment.instructorId p = Some (Course.instructorId (a_course 4999)) /\
      Payment.amount p = Course.price (a_course 4999) /\
      Payment.transactionId p = Some "pi_1" /\
      enrolled student_2 course_1 w2 /\
      enrollmentCount_of course_1 w2 = Some (Course.enrollmentCount (a_course 4999) + 1)%Z.
Proof.
  apply (checkout_then_completion student_2 course_1 "https://checkout/1"
           (a_world 4999 []) (a_course 4999) (Some "pi_1") 4999%Z).
  - vm_compute. reflexivity.
  - intros (e & Hin & _). exact Hin.
  - reflexivity.
Defined.

(** ** Deleting a course *)

Lemma filter_of_course_nil (pk : string) (es : list Enrollment.t) :
  List.filter (of_course pk) es = [] <->
  (forall e, In e es -> Enrollment.courseId e <> Some pk).
Proof.
  split.
  - intros Hnil e Hin Hpk.
    assert (He : In e (List.filter (of_course pk) es)).
    { apply List.filter_In. split; [exact Hin|]. now apply column_is_eq. }
    rewrite Hnil in He. destruct He.
  - intros Hall. induction es as [|e es IH]; [reflexivity|]. simpl.
    destruct (of_course pk e) eqn:He.
    + apply column_is_eq in He. exfalso. apply (Hall e); [now left|exact He].
    + apply IH. intros e' Hin. apply Hall. now right.
Qed.

(** X8.  A request to delete a course removes at most that course, and
    removes it only for the course's own instructor, only when no
    Enrollment row names the course, and then answers 200 "Course
    deleted"; it never touches another course, a Payment or an Enrollment
    row. *)
Theorem delete_course_guards (userId pk : string) (w : World) :
  let w' := exec (delete_course userId pk) w in
  Payments w' = Payments w /\ Enrollments w' = Enrollments w /\
  (forall k : string, k <> pk -> Courses w' !! k = Courses w !! k) /\
  (Courses w' !! pk = Courses w !! pk \/
   (Courses w' !! pk = None /\
    exists course,
      Courses w !! pk = Some course /\
      Course.instructorId course = userId /\
      (forall e, In e (Enrollments w) -> Enrollment.courseId e <> Some pk) /\
      eval (delete_course userId pk) w = Ok (mkResponse 200 (Json_message "Course deleted")))).
Proof.
  cbv zeta. destruct (delete_course_tables userId pk w) as (HP & HE & _ & HC).
  split; [exact HP|]. split; [exact HE|].
  destruct HC as [HC|(course & Hc & Ho & Hn & HC & Hr)].
  - rewrite HC. split; [reflexivity|]. now left.
  - rewrite HC. split.
    + intros k Hk. now apply lookup_delete_ne.
    + right. split; [apply lookup_delete_eq|]. exists course.
      split; [exact Hc|]. split; [exact Ho|]. split; [|exact Hr].
      now apply filter_of_course_nil.
Qed.

(** X9.  With the store serving its queries, the answer to a delete
    request follows the guards in order: 404 for an unknown course, 403
    for anyone but the course's instructor, 400 for the instructor while
    an Enrollment row names the course (the course stays), and 200 with
    the course removed otherwise. *)
Theorem delete_course_answers (userId pk : string) (w : World) :
  serves 3 w = true ->
  let request := delete_course userId pk in
  (Courses w !! pk = None ->
   eval request w = Ok (mkResponse 404 (Json_message "Course not found"))) /\
  (forall course,
     Courses w !! pk = Some course ->
     (Course.instructorId course <> userId ->
      eval request w = Ok (mkResponse 403 (Json_message "Not authorized")) /\
      Courses (exec request w) = Courses w) /\
     (Course.instructorId course = userId ->
      (exists e, In e (Enrollments w) /\ Enrollment.courseId e = Some pk) ->
      eval request w =
        Ok (mkResponse 400 (Json_message "Cannot delete course with enrollments")) /\
      Courses (exec request w) = Courses w) /\
     (Course.instructorId course = userId ->
      (forall e, In e (Enrollments w) -> Enrollment.courseId e <> Some pk) ->
      eval request w = Ok (mkResponse 200 (Json_message "Course deleted")) /\
      Courses (exec request w) = delete pk (Courses w))).
Proof.
  intros Hs. cbv zeta. destruct w as [cs ps es ss qs rs ch]. simpl Courses. simpl Enrollments.
  split.
  - intros Hc.
    destruct rs as [|[] [|[] [|[] rs]]]; try discriminate Hs; run_api;
      rewrite Hc; reflexivity.
  - intros course Hc. split; [|split].
    + intros Ho. apply String.eqb_neq in Ho.
      destruct rs as [|[] [|[] [|[] rs]]]; try discriminate Hs; run_api;
        rewrite Hc; run_api; rewrite Ho; split; reflexivity.
    + intros Ho (e & Hin & Hpk). apply String.eqb_eq in Ho.
      assert (Hne : exists e0 es0, List.filter (of_course pk) es = e0 :: es0).
      { destruct (List.filter (of_course pk) es) as [|e0 es0] eqn:Hf; [|now exists e0, es0].
        exfalso. apply (proj1 (filter_of_course_nil pk es) Hf e Hin Hpk). }
      destruct Hne as (e0 & es0 & Hf).
      destruct rs as [|[] [|[] [|[] rs]]]; try discriminate Hs; run_api;
        rewrite Hc; run_api; rewrite Ho; run_api; rewrite Hf; split; reflexivity.
    + intros Ho Hall. apply String.eqb_eq in Ho.
      apply filter_of_course_nil in Hall.
      destruct rs as [|[] [|[] [|[] rs]]]; try discriminate Hs; run_api;
        rewrite Hc; run_api; rewrite Ho; run_api; rewrite Hall; split; reflexivity.
Qed.

(** X9, witness: requests to delete the course of the scenario, before and
    after a purchase. *)
Lemma delete_course_answers_witness :
  let w := a_world 4999 [] in
  let w1 := exec (webhook (Stripe.Constructed (a_completion student_1 "pi_1" 4999))) w in
  eval (delete_course instructor_1 course_1) w =
    Ok (mkResponse 200 (Json_message "Course deleted")) /\
  eval (delete_course student_1 course_1) w =
    Ok (mkResponse 403 (Json_message "Not authorized")) /\
  eval (delete_course instructor_1 course_1) w1 =
    Ok (mkResponse 400 (Json_message "Cannot delete course with enrollments")).
Proof.
  cbv zeta.
  destruct (delete_course_answers instructor_1 course_1 (a_world 4999 []) eq_refl)
    as [_ H0].
  destruct (delete_course_answers student_1 course_1 (a_world 4999 []) eq_refl)
    as [_ H1].
  destruct (delete_course_answers instructor_1 course_1
              (exec (webhook (Stripe.Constructed (a_completion student_1 "pi_1" 4999)))
                    (a_world 4999 [])) eq_refl) as [_ H2].
  split; [|split].
  - destruct (H0 (a_course 4999)) as (_ & _ & H); [vm_compute; reflexivity|].
    apply H; [reflexivity|]. intros e [].
  - destruct (H1 (a_course 4999)) as (H & _); [vm_compute; reflexivity|].
    apply H. vm_compute. discriminate.
  - destruct (H2 (Course.mk 4999%Z 1%Z instructor_1)) as (_ & H & _);
      [vm_compute; reflexivity|].
    apply H; [reflexivity|].
    exists (enrollment_row
              (Stripe.mkMetadata (Some course_1) (Some student_1) (Some instructor_1))).
    split; [|reflexivity]. vm_compute. left. reflexivity.
Defined.

(** ** Progress of an enrollment *)

(** A progress update of an enrolled student, the two queries served and
    the progress within the range of its column. *)
Lemma update_progress_served (userId pk : string) (progress : float)
    (accessed completed : Z) (w : World) (id : nat) (e : Enrollment.t) :
  next_found userId pk w = Some (id, e) ->
  serves 2 w = true ->
  fits_DECIMAL 5 progress = true ->
  update_progress userId pk progress accessed completed w =
    (Ok (Progress_updated id),
     mkWorld (Courses w) (Payments w)
             (<[id := record_progress progress accessed completed e]> (Enrollments w))
             (checkoutSessions w) (queries w ++ [Enrollment_findOne_query])
             (skipn 2 (refusals w)) (tail (choices w))).
Proof.
  intros Hf Hs Hfit. destruct w as [cs ps es ss qs rs ch].
  unfold next_found in Hf. cbn [choices Enrollments] in Hf.
  pose proof (choose_matching _ _ _ _ _ Hf) as [Hl _].
  destruct rs as [|[] [|[] rs]]; try discriminate Hs; run_api; rewrite Hf; run_api;
    rewrite Hfit; run_api; rewrite Hl; reflexivity.
Qed.

(** The rows of a pair, and the rows a lookup of the pair chooses from. *)
Lemma matching_from_filter (f : Enrollment.t -> bool) (rows : list Enrollment.t) (i : nat) :
  map snd (matching_from i f rows) = List.filter f rows.
Proof.
  revert i. induction rows as [|x rows IH]; intros i; simpl; [reflexivity|].
  destruct (f x); simpl; now rewrite IH.
Qed.

(** When the pair has one row, it is the row a lookup returns, whatever
    the store chooses. *)
Lemma next_found_single (userId pk : string) (w : World) (e : Enrollment.t) :
  enrollments_of userId pk w = [e] ->
  exists id, next_found userId pk w = Some (id, e).
Proof.
  unfold enrollments_of, next_found. intros H.
  rewrite <- (matching_from_filter _ _ 0) in H.
  destruct (matching_from 0 _ _) as [|[id x] [|y l]]; try discriminate H.
  simpl in H. injection H as ->. exists id. unfold choose.
  now destruct (hd 0 (choices w)) as [|[|n]].
Qed.

Lemma filter_single_middle {A} (f : A -> bool) (before after : list A) (e e' : A) :
  List.filter f (before ++ e :: after) = [e] -> f e = true -> f e' = true ->
  List.filter f (before ++ e' :: after) = [e'].
Proof.
  rewrite !List.filter_app. simpl. intros H He He'. rewrite He in H. rewrite He'.
  destruct (List.filter f before) as [|b bs].
  - simpl in H |- *. injection H as H. now rewrite H.
  - simpl in H. injection H as _ H. now destruct bs.
Qed.

(** X10.  A progress update by a student who has no Enrollment for the
    course is answered 404 "Not enrolled" and writes nothing. *)
Theorem progress_of_unenrolled_student (userId pk : string) (progress : float)
    (accessed completed : Z) (w : World) :
  ~ enrolled userId pk w ->
  serves 1 w = true ->
  let request := update_progress userId pk progress accessed completed in
  eval request w = Ok (Progress_refused (mkResponse 404 (Json_message "Not enrolled"))) /\
  Enrollments (exec request w) = Enrollments w /\
  Courses (exec request w) = Courses w /\
  Payments (exec request w) = Payments w.
Proof.
  intros Hn Hs. cbv zeta. destruct w as [cs ps es ss qs rs ch].
  apply (findOne_not_enrolled _ _ _ (hd 0 ch)) in Hn. cbn [Enrollments] in Hn.
  destruct rs as [|[] rs]; try discriminate Hs; run_api; rewrite Hn; repeat split.
Qed.

(** X10, witness: a student of the scenario who bought nothing. *)
Lemma progress_of_unenrolled_student_witness :
  let request := update_progress student_2 course_1 50 1 2 in
  eval request (a_world 4999 []) =
    Ok (Progress_refused (mkResponse 404 (Json_message "Not enrolled"))) /\
  Enrollments (exec request (a_world 4999 [])) = Enrollments (a_world 4999 []) /\
  Courses (exec request (a_world 4999 [])) = Courses (a_world 4999 []) /\
  Payments (exec request (a_world 4999 [])) = Payments (a_world 4999 []).
Proof.
  apply (progress_of_unenrolled_student student_2 course_1 50%float 1%Z 2%Z (a_world 4999 [])).
  - intros (e & Hin & _). exact Hin.
  - reflexivity.
Defined.

(** X11.  A progress update of an enrolled student, with a progress that
    its DECIMAL(5,2) column can take, is answered 200 and updates one of
    the student's rows for the course (the store's choice when there are
    several).  The row keeps the progress of the request rounded to two
    places, whatever its value (nothing keeps it between 0 and 100), has
    [lastAccessedAt] stamped, and has [completedAt] set when the number of
    the request, before rounding, is at least 100; every other row stays
    as it was. *)
Theorem progress_is_stored_as_given (userId pk : string) (progress : float)
    (accessed completed : Z) (w : World) :
  enrolled userId pk w ->
  serves 2 w = true ->
  fits_DECIMAL 5 progress = true ->
  let request := update_progress userId pk progress accessed completed in
  exists id e e',
    eval request w = Ok (Progress_updated id) /\
    Enrollments w !! id = Some e /\
    Enrollment.studentId e = Some userId /\ Enrollment.courseId e = Some pk /\
    Enrollments (exec request w) !! id = Some e' /\
    Enrollment.studentId e' = Some userId /\ Enrollment.courseId e' = Some pk /\
    Enrollment.progress e' = DECIMAL_2 progress /\
    Enrollment.lastAccessedAt e' = Some accessed /\
    Enrollment.completedAt e' =
      (if PrimFloat.leb 100%float progress then Some completed
       else Enrollment.completedAt e) /\
    (forall j, j <> id -> Enrollments (exec request w) !! j = Enrollments w !! j) /\
    length (Enrollments (exec request w)) = length (Enrollments w).
Proof.
  intros He Hs Hfit. cbv zeta.
  destruct (findOne_enrolled userId pk w (hd 0 (choices w)) He) as (id & e & Hf).
  pose proof (choose_matching _ _ _ _ _ Hf) as [Hl Hm].
  apply Enrollment_matches_eq in Hm as [Hsid Hcid].
  exists id, e, (record_progress progress accessed completed e).
  unfold eval, exec.
  rewrite (update_progress_served userId pk progress accessed completed w id e Hf Hs Hfit).
  cbn [fst snd Enrollments].
  split; [reflexivity|]. split; [exact Hl|]. split; [exact Hsid|]. split; [exact Hcid|].
  split; [apply list_lookup_insert_eq; now apply lookup_lt_Some in Hl|].
  split; [exact Hsid|]. split; [exact Hcid|].
  split; [reflexivity|]. split; [reflexivity|]. split; [reflexivity|].
  split; [|apply length_insert].
  intros j Hj. apply list_lookup_insert_ne. congruence.
Qed.

(** X11, witness: the student of a processed purchase reports a progress
    of 150, which is stored with a completion date, and of 99.999, which is
    stored as 100.00 without one. *)
Lemma progress_is_stored_as_given_witness :
  let w := exec (webhook (Stripe.Constructed (a_completion student_1 "pi_1" 4999)))
                (a_world 4999 []) in
  (exists e',
     Enrollments (exec (update_progress student_1 course_1 150 1 2) w) !! 0 = Some e' /\
     Enrollment.progress e' = 15000%Z /\ Enrollment.completedAt e' = Some 2%Z) /\
  (exists e',
     Enrollments (exec (update_progress student_1 course_1 99.999 1 2) w) !! 0 = Some e' /\
     Enrollment.progress e' = 10000%Z /\ Enrollment.completedAt e' = None).
Proof.
  cbv zeta.
  assert (He : enrolled student_1 course_1
                 (exec (webhook (Stripe.Constructed (a_completion student_1 "pi_1" 4999)))
                       (a_world 4999 []))).
  { exists (enrollment_row
              (Stripe.mkMetadata (Some course_1) (Some student_1) (Some instructor_1))).
    split; [|split; reflexivity]. vm_compute. left. reflexivity. }
  split.
  - destruct (progress_is_stored_as_given student_1 course_1 150%float 1%Z 2%Z _ He
                eq_refl eq_refl)
      as (id & e & e' & Hr & Hl & _ & _ & Hl' & _ & _ & Hp & _ & Hc & _).
    vm_compute in Hr. injection Hr as <-.
    exists e'. split; [exact Hl'|]. split; [exact Hp|]. exact Hc.
  - destruct (progress_is_stored_as_given student_1 course_1 99.999%float 1%Z 2%Z _ He
                eq_refl eq_refl)
      as (id & e & e' & Hr & Hl & _ & _ & Hl' & _ & _ & Hp & _ & Hc & _).
    vm_compute in Hr. injection Hr as <-.
    vm_compute in Hl. injection Hl as <-.
    exists e'. split; [exact Hl'|]. split; [exact Hp|]. exact Hc.
Defined.

(** X18.  A progress whose rounded value needs more digits than the
    DECIMAL(5,2) column has (1000 or more, or -1000 or less) is refused by
    the store when the row is saved: the answer is 500 "Failed to update
    progress" and no row changes. *)
Theorem progress_out_of_range_is_refused (userId pk : string) (progress : float)
    (accessed completed : Z) (w : World) :
  enrolled userId pk w ->
  serves 2 w = true ->
  (100000 <= Z.abs (DECIMAL_2 progress))%Z ->
  let request := update_progress userId pk progress accessed completed in
  eval request w =
    Ok (Progress_refused (mkResponse 500 (Json_message "Failed to update progress"))) /\
  Enrollments (exec request w) = Enrollments w /\
  Courses (exec request w) = Courses w /\
  Payments (exec request w) = Payments w.
Proof.
  intros He Hs Hbig. cbv zeta. destruct w as [cs ps es ss qs rs ch].
  destruct (findOne_enrolled _ _ _ (hd 0 ch) He) as (id & e & Hf). cbn [Enrollments] in Hf.
  assert (Hfit : fits_DECIMAL 5 progress = false).
  { unfold fits_DECIMAL. destruct (Prim2SF progress); try reflexivity; apply Z.ltb_ge;
      exact Hbig. }
  destruct rs as [|[] [|[] rs]]; try discriminate Hs; run_api; rewrite Hf; run_api;
    rewrite Hfit; repeat split.
Qed.

(** X18, witness: the student of a processed purchase reports a progress
    of 1000. *)
Lemma progress_out_of_range_is_refused_witness :
  let w := exec (webhook (Stripe.Constructed (a_completion student_1 "pi_1" 4999)))
                (a_world 4999 []) in
  let request := update_progress student_1 course_1 1000 1 2 in
  eval request w =
    Ok (Progress_refused (mkResponse 500 (Json_message "Failed to update progress"))) /\
  Enrollments (exec request w) = Enrollments w /\
  Courses (exec request w) = Courses w /\
  Payments (exec request w) = Payments w.
Proof.
  apply (progress_out_of_range_is_refused student_1 course_1 1000%float 1%Z 2%Z).
  - exists (enrollment_row
              (Stripe.mkMetadata (Some course_1) (Some student_1) (Some instructor_1))).
    split; [|split; reflexivity]. vm_compute. left. reflexivity.
  - reflexivity.
  - vm_compute. discriminate.
Defined.

(** With two Enrollment rows for a pair (the completion was delivered
    twice), the row a progress update changes is the one the store
    returns: the first with one choice, the second with another, and the
    other row stays as it was. *)
Lemma progress_follows_the_choice_of_the_store :
  let delivery := Stripe.Constructed (a_completion student_1 "pi_1" 4999) in
  let w := redeliver 2 delivery (a_world 4999 []) in
  let updated pick :=
    map Enrollment.progress
        (Enrollments (exec (update_progress student_1 course_1 40 1 2)
                           (with_choices [pick] w))) in
  length (enrollments_of student_1 course_1 w) = 2 /\
  updated 0 = [4000%Z; 0%Z] /\
  updated 1 = [0%Z; 4000%Z].
Proof. cbv zeta. repeat split; vm_compute; reflexivity. Qed.

(** X12.  [completedAt] is never cleared.  For a student with one
    Enrollment row for the course: after an update with a progress of at
    least 100, a later update with a lower progress leaves the row with
    the lower progress (rounded by its column) and the completion date of
    the first. *)
Theorem completion_date_is_kept (userId pk : string) (p1 p2 : float)
    (accessed1 completed1 accessed2 completed2 : Z) (w : World) (e : Enrollment.t) :
  enrollments_of userId pk w = [e] ->
  serves 4 w = true ->
  fits_DECIMAL 5 p1 = true ->
  fits_DECIMAL 5 p2 = true ->
  PrimFloat.leb 100%float p1 = true ->
  PrimFloat.leb 100%float p2 = false ->
  let w1 := exec (update_progress userId pk p1 accessed1 completed1) w in
  let w2 := exec (update_progress userId pk p2 accessed2 completed2) w1 in
  exists e2,
    enrollments_of userId pk w2 = [e2] /\
    Enrollment.progress e2 = DECIMAL_2 p2 /\
    Enrollment.completedAt e2 = Some completed1 /\
    Enrollment.lastAccessedAt e2 = Some accessed2.
Proof.
  intros Hone Hs Hfit1 Hfit2 H1 H2. cbv zeta.
  assert (Hs2 : serves 2 w = true) by (apply (serves_le 2 4); [lia|exact Hs]).
  assert (Hstep : forall (w0 : World) (e0 : Enrollment.t) (p : float) (a c : Z),
            enrollments_of userId pk w0 = [e0] -> serves 2 w0 = true ->
            fits_DECIMAL 5 p = true ->
            enrollments_of userId pk (exec (update_progress userId pk p a c) w0) =
              [record_progress p a c e0] /\
            refusals (exec (update_progress userId pk p a c) w0) = skipn 2 (refusals w0)).
  { intros w0 e0 p a c Hone0 Hs0 Hfit0.
    destruct (next_found_single userId pk w0 e0 Hone0) as [id Hf].
    unfold exec. rewrite (update_progress_served userId pk p a c w0 id e0 Hf Hs0 Hfit0).
    cbn [snd refusals]. split; [|reflexivity].
    unfold enrollments_of in *. cbn [Enrollments].
    pose proof (choose_matching _ _ _ _ _ Hf) as [Hl Hm].
    destruct (insert_middle (Enrollments w0) id e0 (record_progress p a c e0) Hl)
      as (before & after & Hw & ->).
    rewrite Hw in Hone0.
    apply (filter_single_middle _ before after e0); [exact Hone0|exact Hm|].
    now rewrite record_progress_matches. }
  destruct (Hstep w e p1 accessed1 completed1 Hone Hs2 Hfit1) as [Hone1 Hr1].
  assert (Hs1 : serves 2 (exec (update_progress userId pk p1 accessed1 completed1) w) = true)
    by (apply (serves_skipn 2 2 w); [exact Hs|exact Hr1]).
  destruct (Hstep _ _ p2 accessed2 completed2 Hone1 Hs1 Hfit2) as [Hone2 _].
  eexists. split; [exact Hone2|]. split; [reflexivity|]. split; [|reflexivity].
  unfold record_progress. cbn [Enrollment.completedAt]. now rewrite H1, H2.
Qed.

(** X12, witness: 100 and then 40 for the student of a processed
    purchase. *)
Lemma completion_date_is_kept_witness :
  let w := exec (webhook (Stripe.Constructed (a_completion student_1 "pi_1" 4999)))
                (a_world 4999 []) in
  let w1 := exec (update_progress student_1 course_1 100 10 11) w in
  let w2 := exec (update_progress student_1 course_1 40 20 21) w1 in
  exists e2,
    enrollments_of student_1 course_1 w2 = [e2] /\
    Enrollment.progress e2 = 4000%Z /\
    Enrollment.completedAt e2 = Some 11%Z /\
    Enrollment.lastAccessedAt e2 = Some 20%Z.
Proof.
  apply (completion_date_is_kept student_1 course_1 100%float 40%float 10%Z 11%Z 20%Z 21%Z
           (exec (webhook (Stripe.Constructed (a_completion student_1 "pi_1" 4999)))
                 (a_world 4999 []))
           (enrollment_row
              (Stripe.mkMetadata (Some course_1) (Some student_1) (Some instructor_1)))).
  - vm_compute. reflexivity.
  - reflexivity.
  - reflexivity.
  - reflexivity.
  - reflexivity.
  - reflexivity.
Defined.

(** X13.  A progress update changes at most one Enrollment row, and that
    row is one of the student's rows for the course: the rows before and
    after it, other rows of the same pair included, stay as they were, and
    the changed row keeps its student and its course. *)
Theorem progress_touches_one_row (userId pk : string) (progress : float)
    (accessed completed : Z) (w : World) :
  let w' := exec (update_progress userId pk progress accessed completed) w in
  Enrollments w' = Enrollments w \/
  (exists before e after,
     Enrollments w = before ++ e :: after /\
     Enrollment.studentId e = Some userId /\ Enrollment.courseId e = Some pk /\
     Enrollments w' = before ++ record_progress progress accessed completed e :: after /\
     Enrollment.studentId (record_progress progress accessed completed e) = Some userId /\
     Enrollment.courseId (record_progress progress accessed completed e) = Some pk).
Proof.
  cbv zeta.
  destruct (update_progress_tables userId pk progress accessed completed w)
    as (_ & _ & _ & [HE|(id & e & Hl & Hm & _ & HE & _)]); [now left|].
  right.
  destruct (insert_middle _ id e (record_progress progress accessed completed e) Hl)
    as (before & after & Hw & Hw').
  exists before, e, after. apply Enrollment_matches_eq in Hm as [Hs Hc].
  split; [exact Hw|]. split; [exact Hs|]. split; [exact Hc|].
  split; [|split; assumption].
  now rewrite HE.
Qed.

(** ** Invariants of the tables *)

Lemma api_step (r : ApiRequest) (w : World) : table_step w (api r w).
Proof.
  destruct r as [[userId courseId create|c]|userId pk|userId pk progress accessed completed];
    cbn [api handle].
  - destruct (create_checkout_tables userId courseId create w) as (HC & HP & HE).
    now apply nothing_written.
  - destruct (webhook_tables c w) as [_ [(HP & HE & HC)|H]]; [now apply nothing_written|].
    destruct H as (event & pk & sid & iid & course & _ & _ & Hc & HP & H).
    now apply (payment_written w _ _ (Stripe.data_object event) pk sid iid course eq_refl).
  - destruct (delete_course_tables userId pk w) as (HP & HE & _ & [HC|H]);
      [now apply nothing_written|].
    destruct H as (course & _ & _ & Hn & HC & _). now apply (course_deleted w _ pk).
  - destruct (update_progress_tables userId pk progress accessed completed w)
      as (HC & HP & _ & [HE|(id & e & Hl & _ & _ & HE & _)]); [now apply nothing_written|].
    destruct (insert_middle _ id e (record_progress progress accessed completed e) Hl)
      as (before & after & Hw & Hw').
    apply (progress_recorded w _ before after e
             (record_progress progress accessed completed e)); try assumption; try reflexivity.
    now rewrite HE.
Qed.

Lemma length_filter_snoc {A} (f : A -> bool) (l : list A) (x : A) :
  length (List.filter f (l ++ [x])) = length (List.filter f l) + (if f x then 1 else 0).
Proof.
  rewrite List.filter_app, length_app. simpl. now destruct (f x).
Qed.

Lemma length_filter_middle {A} (f : A -> bool) (before after : list A) (e e' : A) :
  f e' = f e ->
  length (List.filter f (before ++ e' :: after)) =
  length (List.filter f (before ++ e :: after)).
Proof.
  intros H. rewrite !List.filter_app, !length_app. simpl. rewrite H.
  now destruct (f e).
Qed.

Lemma enrollments_have_courses_step (w w' : World) :
  table_step w w' -> enrollments_have_courses w -> enrollments_have_courses w'.
Proof.
  intros Hstep Hinv e Hin.
  destruct Hstep as [HC HP HE
                    |md session pk sid iid course Hmd Hc HP H
                    |pk Hn HC HP HE
                    |before after e0 e' Hl Hl' Hs Hk HC HP].
  - rewrite HE in Hin. rewrite HC. now apply Hinv.
  - destruct H as [[HE HC]|[HE HC]].
    + rewrite HE in Hin. rewrite HC. now apply Hinv.
    + assert (Hkeep : forall k : string, is_Some (Courses w !! k) -> is_Some (Courses w' !! k)).
      { intros k Hk. destruct HC as [->| ->]; [exact Hk|].
        destruct (decide (pk = k)) as [<-|Hne].
        - rewrite lookup_alter_eq, Hc. now eexists.
        - now rewrite lookup_alter_ne. }
      rewrite HE in Hin. apply in_app_or in Hin as [Hin|[<-|[]]].
      * destruct (Hinv e Hin) as (s & k & Hs & Hk & Hsome). exists s, k. auto.
      * exists sid, pk. rewrite Hmd. unfold enrollment_row.
        split; [reflexivity|]. split; [reflexivity|]. apply Hkeep. rewrite Hc. now eexists.
  - rewrite HE in Hin. destruct (Hinv e Hin) as (s & k & Hs & Hk & Hsome).
    exists s, k. split; [exact Hs|]. split; [exact Hk|]. rewrite HC.
    rewrite lookup_delete_ne; [exact Hsome|].
    intros <-. apply (proj1 (filter_of_course_nil pk (Enrollments w)) Hn e Hin Hk).
  - rewrite HC. rewrite Hl' in Hin. apply in_app_or in Hin as [Hin|[<-|Hin]].
    + apply Hinv. rewrite Hl. apply in_or_app. now left.
    + destruct (Hinv e0) as (s & k & Hs0 & Hk0 & Hsome).
      { rewrite Hl. apply in_or_app. right. now left. }
      exists s, k. rewrite Hs, Hk. auto.
    + apply Hinv. rewrite Hl. apply in_or_app. right. now right.
Qed.

Lemma enrollments_are_paid_step (w w' : World) :
  table_step w w' -> enrollments_are_paid w -> enrollments_are_paid w'.
Proof.
  intros Hstep Hinv s k. specialize (Hinv s k).
  unfold enrollments_of, payments_for in *.
  destruct Hstep as [HC HP HE
                    |md session pk sid iid course Hmd Hc HP H
                    |pk Hn HC HP HE
                    |before after e0 e' Hl Hl' Hs Hk HC HP].
  - now rewrite HE, HP.
  - rewrite HP, length_filter_snoc.
    destruct H as [[HE _]|[HE _]]; rewrite HE.
    + lia.
    + rewrite length_filter_snoc.
      change (Enrollment_matches s k (enrollment_row md))
        with (column_is s (Payment.studentId (payment_row md session course)) &&
              column_is k (Payment.courseId (payment_row md session course))).
      lia.
  - now rewrite HE, HP.
  - rewrite HP, Hl'. rewrite Hl in Hinv.
    rewrite (length_filter_middle _ before after e0 e'); [exact Hinv|].
    unfold Enrollment_matches. now rewrite Hs, Hk.
Qed.

Lemma counters_are_backed_step (w w' : World) :
  table_step w w' -> counters_are_backed w -> counters_are_backed w'.
Proof.
  intros Hstep Hinv k c Hk.
  destruct Hstep as [HC HP HE
                    |md session pk sid iid course Hmd Hc HP H
                    |pk Hn HC HP HE
                    |before after e0 e' Hl Hl' Hs Hk' HC HP].
  - rewrite HE. rewrite HC in Hk. now apply Hinv.
  - destruct H as [[HE HC]|[HE HC]].
    + rewrite HE. rewrite HC in Hk. now apply Hinv.
    + rewrite HE, length_filter_snoc.
      destruct HC as [HC|HC]; rewrite HC in Hk.
      * specialize (Hinv k c Hk). lia.
      * destruct (decide (pk = k)) as [<-|Hne].
        -- rewrite lookup_alter_eq, Hc in Hk. injection Hk as <-.
           specialize (Hinv pk course Hc).
           assert (Hrow : of_course pk (enrollment_row md) = true).
           { rewrite Hmd. unfold of_course, enrollment_row. apply column_is_refl. }
           rewrite Hrow. simpl Course.enrollmentCount. lia.
        -- rewrite lookup_alter_ne in Hk by exact Hne. specialize (Hinv k c Hk). lia.
  - rewrite HE. rewrite HC in Hk.
    destruct (decide (pk = k)) as [<-|Hne].
    + rewrite lookup_delete_eq in Hk. discriminate.
    + rewrite lookup_delete_ne in Hk by exact Hne. now apply Hinv.
  - rewrite HC in Hk. specialize (Hinv k c Hk). rewrite Hl'. rewrite Hl in Hinv.
    rewrite (length_filter_middle _ before after e0 e'); [exact Hinv|].
    unfold of_course. now rewrite Hk'.
Qed.

Lemma serve_api_invariant (P : World -> Prop) :
  (forall w w', table_step w w' -> P w -> P w') ->
  forall rs w, P w -> P (serve_api rs w).
Proof.
  intros Hstep rs. induction rs as [|r rs IH]; intros w Hw; [exact Hw|].
  simpl. apply IH. apply (Hstep w); [apply api_step|exact Hw].
Qed.

(** X14.  Requests to the payment and course routes, handled one after
    another, keep every Enrollment row attached to a student and to a
    course that exists: the webhook enrolls only in a course it found, and
    a course is deleted only when no Enrollment row names it. *)
Theorem enrollments_keep_their_courses (rs : list ApiRequest) (w : World) :
  enrollments_have_courses w -> enrollments_have_courses (serve_api rs w).
Proof. apply serve_api_invariant. exact enrollments_have_courses_step. Qed.

(** X15.  Requests handled one after another never leave a student with
    more Enrollment rows for a course than Payment rows for it: the
    webhook inserts the Payment before the Enrollment, and no route
    deletes a Payment or moves an Enrollment to another student or
    course. *)
Theorem enrollments_stay_paid (rs : list ApiRequest) (w : World) :
  enrollments_are_paid w -> enrollments_are_paid (serve_api rs w).
Proof. apply serve_api_invariant. exact enrollments_are_paid_step. Qed.

(** X16.  Requests handled one after another never let a course's
    [enrollmentCount] exceed the number of Enrollment rows of the course:
    the counter is incremented after the Enrollment insert, by one, and no
    route removes an Enrollment row.  (The counter may fall behind: a
    failed save leaves it one short.) *)
Theorem counters_stay_backed (rs : list ApiRequest) (w : World) :
  counters_are_backed w -> counters_are_backed (serve_api rs w).
Proof. apply serve_api_invariant. exact counters_are_backed_step. Qed.

(** X14, witness: the run of the scenario, with the tenth query (the save
    of the counter by the second delivery) refused. *)
Lemma enrollments_keep_their_courses_witness :
  enrollments_have_courses
    (serve_api a_run (a_world 4999 [false; false; false; false; false; false;
                                    false; false; false; true])).
Proof.
  apply (enrollments_keep_their_courses a_run).
  intros e Hin. destruct Hin.
Defined.

(** X15, witness: the same run. *)
Lemma enrollments_stay_paid_witness :
  enrollments_are_paid
    (serve_api a_run (a_world 4999 [false; false; false; false; false; false;
                                    false; false; false; true])).
Proof.
  apply (enrollments_stay_paid a_run).
  intros s k. apply le_n.
Defined.

(** X16, witness: the same run. *)
Lemma counters_stay_backed_witness :
  counters_are_backed
    (serve_api a_run (a_world 4999 [false; false; false; false; false; false;
                                    false; false; false; true])).
Proof.
  apply (counters_stay_backed a_run).
  intros pk course Hc. simpl in Hc.
  apply lookup_singleton_Some in Hc as [_ <-]. simpl. lia.
Defined.
